(** * fluids.design_climate_ms: degree days, monthly climate profiles,
      extreme months and the geocoding cache.

    A shallow embedding of [calculations.py], [weather_data.py] and
    [geocoding.py].  Python floats are modelled by exact rationals [Q]
    (rounding is abstracted away); the missing-value marker NaN of pandas
    is kept as a separate constructor, because the behaviour of the code
    depends on the difference between NaN and Python's [None]. *)

From Stdlib Require Import ZArith QArith Qminmax Lqa.
From stdpp Require Import gmap strings list sorting.

Local Open Scope Z_scope.

Set Warnings "-clear-no-such-hyp".

(** ** Python results: a value or a raised exception *)

Module Py.

Inductive exn : Type :=
| ImportError (msg : string)
| ValueError (msg : string)
| SqliteError          (* sqlite3.Error and its subclasses *)
| GeocoderError.       (* geopy.exc.GeopyError and its subclasses *)

Inductive result (A : Type) : Type :=
| Return (a : A)
| Raise (e : exn).
Arguments Return {A} a.
Arguments Raise {A} e.

Definition bind {A B} (r : result A) (k : A -> result B) : result B :=
  match r with
  | Return a => k a
  | Raise e => Raise e
  end.

#[global] Instance exn_eq_dec : EqDecision exn.
Proof. solve_decision. Defined.

End Py.

Notation "x <- r ;;; k" := (Py.bind r (fun x => k))
  (at level 100, r at next level, right associativity, only parsing).

(** ** calculations.py *)

Module Calculations.

Local Open Scope Q_scope.

(** 65 F = 291.483 K, the default of the [T_base] argument. *)
Definition default_T_base : Q := 291483 # 1000.

(** Python's two-argument [max(a, b)]: the result is [a] unless [b] is
    strictly greater. *)
Definition py_max (a b : Q) : Q :=
  if Qlt_le_dec a b then b else a.

Definition heating_degree_days (T T_base : Q) (truncate : bool) : Q :=
  let diff := T_base - T in
  if truncate then py_max 0 diff else diff.

Definition cooling_degree_days (T T_base : Q) (truncate : bool) : Q :=
  let diff := T - T_base in
  if truncate then py_max 0 diff else diff.

End Calculations.

(** ** weather_data.py *)

Module WeatherData.
Import Py.

(** A float64 cell of a pandas column: NaN marks a missing value. *)
Inductive float64 : Type :=
| NaN
| Num (q : Q).

Definition notna (x : float64) : option Q :=
  match x with
  | NaN => None
  | Num q => Some q
  end.

Record datetime : Type := { year : Z; month : Z; day : Z }.

(** One row of the daily frame after [reset_index()]. *)
Record DailyRecord : Type :=
  { time : datetime; temp : float64; wspd : float64 }.

Abbreviation DataFrame := (list DailyRecord).

(** *** The pandas operations the module uses *)

Definition Qsum (l : list Q) : Q := fold_left Qplus l 0%Q.

Definition Qmean (l : list Q) : Q :=
  (Qsum l / inject_Z (Z.of_nat (length l)))%Q.

(** [Series.count()]: the number of cells that are not NaN. *)
Definition series_count (s : list float64) : Z :=
  Z.of_nat (length (omap notna s)).

(** [Series.mean()] with the default [skipna=True]: the mean of the
    cells that are not NaN, and NaN when there is none. *)
Definition series_mean (s : list float64) : float64 :=
  match omap notna s with
  | [] => NaN
  | v :: vs => Num (Qmean (v :: vs))
  end.

(** [groupby] with the default [sort=True]: one group per distinct key,
    in ascending key order, each holding its rows in frame order. *)
Section groupby.
Context {A K : Type} `{EqDecision K}.
Context (R : relation K) `{!RelDecision R}.

Definition group_keys (key : A -> K) (df : list A) : list K :=
  merge_sort R (remove_dups (key <$> df)).

Definition groupby (key : A -> K) (df : list A) : list (K * list A) :=
  (fun k => (k, filter (fun r => key r = k) df)) <$> group_keys key df.
End groupby.

(** Order of the two-column key [['year', 'month']]. *)
Definition ym_le (a b : Z * Z) : Prop :=
  a.1 < b.1 \/ (a.1 = b.1 /\ a.2 <= b.2).

#[global] Instance ym_le_dec : RelDecision ym_le :=
  fun a b => decide (a.1 < b.1 \/ (a.1 = b.1 /\ a.2 <= b.2)).

(** [Series.get(k)]: the value at label [k], [None] when the label is
    not in the index. *)
Fixpoint series_get {V : Type} (s : list (Z * V)) (k : Z) : option V :=
  match s with
  | [] => None
  | (k', v) :: s' => if decide (k' = k) then Some v else series_get s' k
  end.

(** *** Monthly averages *)

(** A row of [grouped] after [reset_index()]. *)
Record GroupedRow : Type :=
  { g_year : Z; g_month : Z; g_mean : float64; g_count : Z }.

Definition year_month (r : DailyRecord) : Z * Z :=
  (year (time r), month (time r)).

(** [df.groupby(['year', 'month']).agg(mean, count).reset_index()] *)
Definition aggregate (col : DailyRecord -> float64)
    (g : (Z * Z) * list DailyRecord) : GroupedRow :=
  {| g_year := g.1.1; g_month := g.1.2;
     g_mean := series_mean (col <$> g.2);
     g_count := series_count (col <$> g.2) |}.

(** [grouped.loc[grouped['count'] < min_days, mean] = pd.NA]: in a
    float64 column the assigned NA is stored as NaN. *)
Definition mask_incomplete (min_days : Z) (g : GroupedRow) : GroupedRow :=
  if decide (g_count g < min_days)
  then {| g_year := g_year g; g_month := g_month g;
          g_mean := NaN; g_count := g_count g |}
  else g.

(** Lines 242-260 (and 297-313): from the fetched frame to the list of
    twelve entries, each [None] or a float. *)
Definition monthly_profile (col : DailyRecord -> float64) (min_days : Z)
    (df : option DataFrame) : list (option float64) :=
  match df with
  | None | Some [] => replicate 12 None
  | Some rows =>
      let grouped := aggregate col <$> groupby ym_le year_month rows in
      let grouped := mask_incomplete min_days <$> grouped in
      let monthly :=
        (fun g => (g.1, series_mean (g_mean <$> g.2)))
          <$> groupby Z.le g_month grouped in
      (fun m => series_get monthly m) <$> seqZ 1 12
  end.

(** The meteostat collaborator: whether the package could be imported,
    and what [ms.daily(station, start, end).fetch(units)] returns. *)
Record meteostat : Type :=
  { _METEOSTAT_AVAILABLE : bool;
    ms_daily_fetch : string -> datetime -> datetime -> bool ->
                     option DataFrame }.

Definition _METEOSTAT_MISSING_MSG : string :=
  "meteostat is required for this functionality.
Install with: pip install meteostat".

Definition _check_meteostat (ms : meteostat) : result unit :=
  if _METEOSTAT_AVAILABLE ms then Return tt
  else Raise (ImportError _METEOSTAT_MISSING_MSG).

Definition get_daily_data (ms : meteostat) (station_id : string)
    (start end_ : datetime) (si_units : bool) : result (option DataFrame) :=
  _ <- _check_meteostat ms ;;;
  Return (ms_daily_fetch ms station_id start end_ si_units).

Definition month_average (col : DailyRecord -> float64) (ms : meteostat)
    (station_id : string) (start_year end_year min_days : Z)
    (si_units : bool) : result (list (option float64)) :=
  _ <- _check_meteostat ms ;;;
  let start := {| year := start_year; month := 1; day := 1 |} in
  let end_ := {| year := end_year; month := 12; day := 31 |} in
  df <- get_daily_data ms station_id start end_ si_units ;;;
  Return (monthly_profile col min_days df).

Definition month_average_temperature := month_average temp.
Definition month_average_windspeed := month_average wspd.

(** The two averaged fields, to speak about both functions at once. *)
Inductive field : Type := Temperature | WindSpeed.

Definition column (fld : field) : DailyRecord -> float64 :=
  match fld with
  | Temperature => temp
  | WindSpeed => wspd
  end.

Definition month_average_of (fld : field) :=
  match fld with
  | Temperature => month_average_temperature
  | WindSpeed => month_average_windspeed
  end.

(** The frame that [month_average_temperature] and
    [month_average_windspeed] fetch for a range of years. *)
Definition window (ms : meteostat) (station_id : string)
    (start_year end_year : Z) (si_units : bool) : option DataFrame :=
  ms_daily_fetch ms station_id
    {| year := start_year; month := 1; day := 1 |}
    {| year := end_year; month := 12; day := 31 |} si_units.

(** *** Extreme months *)

(** Comparison of two floats: false as soon as one side is NaN. *)
Definition float_ltb (a b : float64) : bool :=
  match a, b with
  | Num x, Num y => if Qlt_le_dec x y then true else false
  | _, _ => false
  end.

Definition float_gtb (a b : float64) : bool := float_ltb b a.

(** Python's [min(xs, key=...)] and [max(xs, key=...)] on a non-empty
    sequence: the first element is kept until a later one compares
    strictly smaller (resp. greater). *)
Definition py_best_by {A} (better : float64 -> float64 -> bool)
    (key : A -> float64) (x : A) (xs : list A) : A :=
  fold_left (fun best y => if better (key y) (key best) then y else best)
            xs x.

Definition py_min_by {A} := @py_best_by A float_ltb.
Definition py_max_by {A} := @py_best_by A float_gtb.

(** [[(i, t) for i, t in enumerate(temps) if t is not None]] *)
Definition valid_entries (temps : list (option float64))
    : list (nat * float64) :=
  omap (fun it => pair it.1 <$> it.2) (imap pair temps).

Definition coldest_of (temps : list (option float64))
    : result (nat * float64) :=
  match valid_entries temps with
  | [] => Raise (ValueError "No valid temperature data")
  | x :: xs => Return (py_min_by snd x xs)
  end.

Definition warmest_of (temps : list (option float64))
    : result (nat * float64) :=
  match valid_entries temps with
  | [] => Raise (ValueError "No valid temperature data")
  | x :: xs => Return (py_max_by snd x xs)
  end.

Definition coldest_month (ms : meteostat) (station_id : string)
    (start_year : Z) (end_year : option Z) (min_days : Z)
    (si_units : bool) : result (nat * float64) :=
  let end_year := default start_year end_year in
  temps <- month_average_temperature ms station_id start_year end_year
             min_days si_units ;;;
  coldest_of temps.

Definition warmest_month (ms : meteostat) (station_id : string)
    (start_year : Z) (end_year : option Z) (min_days : Z)
    (si_units : bool) : result (nat * float64) :=
  let end_year := default start_year end_year in
  temps <- month_average_temperature ms station_id start_year end_year
             min_days si_units ;;;
  warmest_of temps.

End WeatherData.

(** ** geocoding.py *)

Module Geocoding.
Import Py.

Definition GEOLOCATOR_USER_AGENT : string := "fluids".
Definition GEOLOCATOR_CACHE_FILENAME : string :=
  "simple_geolocator_cache.sqlite3".

Definition _GEOPY_MISSING_MSG : string :=
  "geopy is required for geocoding.
Install with: pip install geopy".

(** [os.path.join(_data_dir, name)] *)
Definition path_join (dir name : string) : string :=
  if decide (dir = "") then name else dir +:+ "/" +:+ name.

(** The sqlite3 connection of a cache: the rows of table [geopy] keyed by
    their primary key [address], whether [close()] was called, and
    whether the engine refuses to read or to write (a locked, damaged or
    read-only database file). *)
Record connection : Type :=
  { closed : bool;
    read_fault : bool;
    write_fault : bool;
    geopy : gmap string (Q * Q) }.

Record SimpleGeolocatorCache : Type :=
  { file_path : string; conn : connection }.

Definition with_rows (self : SimpleGeolocatorCache)
    (rows : gmap string (Q * Q)) : SimpleGeolocatorCache :=
  {| file_path := file_path self;
     conn := {| closed := closed (conn self);
                read_fault := read_fault (conn self);
                write_fault := write_fault (conn self);
                geopy := rows |} |}.

(** [__init__]: [sqlite3.connect(file_path)] raises or gives a
    connection, on which [_init_schema] runs [CREATE TABLE IF NOT
    EXISTS]: the rows of an existing table are left alone, a new table
    has none. *)
Definition _init_schema (self : SimpleGeolocatorCache)
    : result SimpleGeolocatorCache :=
  if closed (conn self) then Raise SqliteError else Return self.

Definition SimpleGeolocatorCache_init
    (sqlite3_connect : string -> result connection) (file_path : string)
    : result SimpleGeolocatorCache :=
  c <- sqlite3_connect file_path ;;;
  _init_schema {| file_path := file_path; conn := c |}.

(** [SELECT latitude, longitude FROM geopy WHERE address = ?] and
    [fetchone()]: the row, or [None]. *)
Definition cached_address (self : SimpleGeolocatorCache) (address : string)
    : result (option (Q * Q)) :=
  if closed (conn self) || read_fault (conn self) then Raise SqliteError
  else Return (geopy (conn self) !! address).

(** [INSERT OR REPLACE INTO geopy ...] and [commit()]. *)
Definition cache_address (self : SimpleGeolocatorCache) (address : string)
    (latitude longitude : Q) : result SimpleGeolocatorCache :=
  if closed (conn self) || write_fault (conn self) then Raise SqliteError
  else Return (with_rows self
                 (<[address := (latitude, longitude)]> (geopy (conn self)))).

(** [DELETE FROM geopy] and [commit()]. *)
Definition clear (self : SimpleGeolocatorCache)
    : result SimpleGeolocatorCache :=
  if closed (conn self) || write_fault (conn self) then Raise SqliteError
  else Return (with_rows self ∅).

(** [SELECT COUNT( * ) FROM geopy] *)
Definition __len__ (self : SimpleGeolocatorCache) : result nat :=
  if closed (conn self) || read_fault (conn self) then Raise SqliteError
  else Return (size (geopy (conn self))).

Definition close (self : SimpleGeolocatorCache) : SimpleGeolocatorCache :=
  {| file_path := file_path self;
     conn := {| closed := true;
                read_fault := read_fault (conn self);
                write_fault := write_fault (conn self);
                geopy := geopy (conn self) |} |}.

(** What [geocoder.geocode(address)] does: a location, [None], or an
    exception of the provider. *)
Inductive provider_reply : Type :=
| Location (latitude longitude : Q)
| NoMatch
| ProviderRaises.

(** The collaborators of the module, fixed for a run. *)
Record environment : Type :=
  { _GEOPY_AVAILABLE : bool;
    _data_dir : string;
    nominatim : string -> provider_reply;
    sqlite3_connect : string -> result connection }.

Definition GEOLOCATOR_CACHE_PATH (env : environment) : string :=
  path_join (_data_dir env) GEOLOCATOR_CACHE_FILENAME.

(** What a run does to its collaborators, to be able to say that it does
    not call them. *)
Inductive event : Type :=
| OpenCache                      (* SimpleGeolocatorCache(path) *)
| ReadCache (address : string)   (* cache.cached_address(address) *)
| CallProvider (address : string) (* geocoder.geocode(address) *)
| WriteCache (address : string). (* cache.cache_address(address, ...) *)

(** The module-level singletons, and the trace of the calls made so far
    (most recent first). *)
Record globals : Type :=
  { _geolocator : bool;
    _geopy_cache : option SimpleGeolocatorCache;
    trace : list event }.

Definition set_geolocator (g : globals) : globals :=
  {| _geolocator := true; _geopy_cache := _geopy_cache g;
     trace := trace g |}.

Definition set_geopy_cache (c : SimpleGeolocatorCache) (g : globals)
    : globals :=
  {| _geolocator := _geolocator g; _geopy_cache := Some c;
     trace := trace g |}.

Definition log (e : event) (g : globals) : globals :=
  {| _geolocator := _geolocator g; _geopy_cache := _geopy_cache g;
     trace := e :: trace g |}.

(** The addresses sent to the provider so far. *)
Definition provider_calls (g : globals) : list string :=
  omap (fun e => match e with CallProvider a => Some a | _ => None end)
       (trace g).

(** The Nominatim geocoder, or [None] when geopy is missing. *)
Definition geopy_geolocator (env : environment) (g : globals)
    : option (string -> provider_reply) * globals :=
  if negb (_GEOPY_AVAILABLE env) then (None, g)
  else (Some (nominatim env), set_geolocator g).

Definition geopy_cache (env : environment) (g : globals)
    : result SimpleGeolocatorCache * globals :=
  match _geopy_cache g with
  | Some c => (Return c, g)
  | None =>
      let g := log OpenCache g in
      match SimpleGeolocatorCache_init (sqlite3_connect env)
              (GEOLOCATOR_CACHE_PATH env) with
      | Return c => (Return c, set_geopy_cache c g)
      | Raise e => (Raise e, g)
      end
  end.

(** The [try] block of [geocode]: the value of the variable [cache]
    after it ([None] when an exception was caught) and the pair read
    from the cache, if any. *)
Definition try_cache (env : environment) (address : string) (g : globals)
    : (option SimpleGeolocatorCache * option (Q * Q)) * globals :=
  match geopy_cache env g with
  | (Raise _, g) => ((None, None), g)             (* except Exception *)
  | (Return cache, g) =>
      let g := log (ReadCache address) g in
      match cached_address cache address with
      | Return result => ((Some cache, result), g)
      | Raise _ => ((None, None), g)              (* except Exception *)
      end
  end.

Definition geocode (env : environment) (address : string) (g : globals)
    : result (Q * Q) * globals :=
  if negb (_GEOPY_AVAILABLE env)
  then (Raise (ImportError _GEOPY_MISSING_MSG), g)
  else
    (* Try cache first *)
    let '((cache, result), g) := try_cache env address g in
    match result with
    | Some result => (Return result, g)
    | None =>
        (* Online lookup *)
        match geopy_geolocator env g with
        | (None, g) => (Raise (ImportError _GEOPY_MISSING_MSG), g)
        | (Some geocoder, g) =>
            let g := log (CallProvider address) g in
            match geocoder address with
            | ProviderRaises => (Raise GeocoderError, g)
            | NoMatch =>
                (Raise (ValueError ("Could not geocode: " +:+ address)), g)
            | Location latitude longitude =>
                (* Cache result *)
                let g := match cache with
                         | Some cache =>
                             let g := log (WriteCache address) g in
                             match cache_address cache address
                                     latitude longitude with
                             | Return cache => set_geopy_cache cache g
                             | Raise _ => g           (* pass *)
                             end
                         | None => g
                         end in
                (Return (latitude, longitude), g)
            end
        end
    end.

(** What the cache that [geocode] consults answers for an address:
    the singleton, opened on first use, and its [cached_address]. *)
Definition cache_lookup (env : environment) (g : globals)
    (address : string) : result (option (Q * Q)) :=
  cache <- (geopy_cache env g).1 ;;;
  cached_address cache address.

(** The coordinates a run obtains: the cached pair on a hit, otherwise
    the location the provider gives. *)
Definition obtained (env : environment) (g : globals) (address : string)
    : option (Q * Q) :=
  match cache_lookup env g address with
  | Return (Some v) => Some v
  | _ =>
      match nominatim env address with
      | Location latitude longitude => Some (latitude, longitude)
      | _ => None
      end
  end.

(** An open cache whose store answers reads and writes. *)
Definition usable (self : SimpleGeolocatorCache) : Prop :=
  closed (conn self) = false
  /\ read_fault (conn self) = false
  /\ write_fault (conn self) = false.

(** A sequence of [cache_address] calls. *)
Definition store_all (entries : list (string * (Q * Q)))
    (self : SimpleGeolocatorCache) : result SimpleGeolocatorCache :=
  fold_left
    (fun acc e => c <- acc ;;; cache_address c e.1 e.2.1 e.2.2)
    entries (Return self).

(** The connection to a database file that did not exist before. *)
Definition new_database : connection :=
  {| closed := false; read_fault := false; write_fault := false;
     geopy := ∅ |}.

End Geocoding.

(** ** stations.py *)

Module Stations.
Import Py WeatherData.

(** A row of the station frames of meteostat; the station id is the
    index of the frame.  A missing country or region is [None]. *)
Record Station : Type :=
  { id : string;
    name : string;
    country : option string;
    region : option string;
    latitude : float64;
    longitude : float64;
    elevation : float64;
    timezone : option string }.

(** A row of [ms.stations.nearby(point)]: the station and its distance
    from the point, in metres. *)
Record NearbyStation : Type :=
  { station : Station; distance : float64 }.

(** The collaborators: whether meteostat could be imported, what
    [ms.stations.nearby(ms.Point(lat, lon), limit=...)] and
    [ms.stations.meta()] return, and how an f-string prints a float. *)
Record meteostat : Type :=
  { _METEOSTAT_AVAILABLE : bool;
    stations_nearby : Q -> Q -> option Z -> list NearbyStation;
    stations_meta : list Station;
    str_float : Q -> string }.

Definition _METEOSTAT_MISSING_MSG : string :=
  "meteostat is required for this functionality.
Install with: pip install meteostat".

Definition _check_meteostat (ms : meteostat) : result unit :=
  if _METEOSTAT_AVAILABLE ms then Return tt
  else Raise (ImportError _METEOSTAT_MISSING_MSG).

(** [min_date] is accepted and not used. *)
Definition get_closest_station (ms : meteostat) (latitude longitude : Q)
    (min_date : option datetime) : result (list NearbyStation) :=
  _ <- _check_meteostat ms ;;;
  let df := stations_nearby ms latitude longitude (Some 1) in
  match df with
  | [] => Raise (ValueError ("No station found near ("
                               +:+ str_float ms latitude +:+ ", "
                               +:+ str_float ms longitude +:+ ")"))
  | _ => Return df
  end.

(** [df['distance'] <= x] on a float64 column: false on NaN. *)
Definition float_le_Q (d : float64) (x : Q) : Prop :=
  match d with
  | NaN => False
  | Num q => (q <= x)%Q
  end.

#[global] Instance float_le_Q_dec d x : Decision (float_le_Q d x).
Proof.
  destruct d as [|q]; simpl.
  - right. tauto.
  - destruct (Qlt_le_dec x q) as [Hlt|Hle].
    + right. by apply Qlt_not_le.
    + by left.
Defined.

(** [limit] is accepted and not passed on. *)
Definition get_stations_nearby (ms : meteostat) (latitude longitude : Q)
    (limit : Z) (max_distance_km : option Q) : result (list NearbyStation) :=
  _ <- _check_meteostat ms ;;;
  let df := stations_nearby ms latitude longitude None in
  let df := match max_distance_km with
            | Some km =>
                filter (fun s => float_le_Q (distance s) (km * 1000)) df
            | None => df
            end in
  Return df.

(** [df.loc[station_id]]: the rows of that label (a Series when there is
    one such row). *)
Definition get_station_by_id (ms : meteostat) (station_id : string)
    : result (list Station) :=
  _ <- _check_meteostat ms ;;;
  let df := stations_meta ms in
  if decide (station_id ∈ id <$> df)
  then Return (filter (fun s => id s = station_id) df)
  else Raise (ValueError ("Station '" +:+ station_id +:+ "' not found")).

Definition get_all_stations (ms : meteostat) (country_ region_ : option string)
    : result (list Station) :=
  _ <- _check_meteostat ms ;;;
  let df := stations_meta ms in
  let df := match country_ with
            | Some c => filter (fun s => country s = Some c) df
            | None => df
            end in
  let df := match region_ with
            | Some r => filter (fun s => region s = Some r) df
            | None => df
            end in
  Return df.

(** A requested country or region against the one of a station: no
    request matches every station, a request matches the stations that
    carry exactly that value. *)
Definition matches (wanted have : option string) : Prop :=
  match wanted with
  | Some w => have = Some w
  | None => True
  end.

#[global] Instance matches_dec wanted have : Decision (matches wanted have).
Proof. destruct wanted; simpl; apply _. Defined.

End Stations.

(** ** The monthly aggregation as the specification words it *)

Module MonthlyAggregatorSpec.
Import WeatherData.

(** The calendar years that occur in the window, in ascending order. *)
Definition years (rows : DataFrame) : list Z :=
  group_keys Z.le (fun r => year (time r)) rows.

(** The cells of the field in the records of month [m] of year [y]. *)
Definition cells (col : DailyRecord -> float64) (rows : DataFrame)
    (y m : Z) : list float64 :=
  col <$> filter (fun r => year_month r = (y, m)) rows.

(** The number of valid samples of the group, and their mean. *)
Definition valid_count col rows (y m : Z) : Z :=
  series_count (cells col rows y m).

Definition group_mean col rows (y m : Z) : float64 :=
  series_mean (cells col rows y m).

(** The years whose valid-sample count for month [m] reaches the
    threshold. *)
Definition qualifying_years col rows (threshold m : Z) : list Z :=
  filter (fun y => threshold <= valid_count col rows y m) (years rows).

(** The plain arithmetic mean, every element with weight one; it has no
    value when an element has none. *)
Definition arithmetic_mean (l : list float64) : float64 :=
  match mapM notna l with
  | Some (v :: vs) => Num (Qmean (v :: vs))
  | _ => NaN
  end.

Definition mean_of_means col rows (threshold m : Z) : float64 :=
  arithmetic_mean
    ((fun y => group_mean col rows y m)
       <$> qualifying_years col rows threshold m).

(** The valid samples of a group. *)
Definition valid_values col rows (y m : Z) : list Q :=
  omap notna (cells col rows y m).

(** The means of the years that qualify with at least one valid
    sample, in ascending order of the years. *)
Definition qualifying_means col (min_days : Z) rows (m : Z) : list Q :=
  (fun y => Qmean (valid_values col rows y m))
    <$> qualifying_years col rows (Z.max 1 min_days) m.

(** The row of [grouped] for a key, after the completeness mask. *)
Definition grouped_row col (min_days : Z) (rows : DataFrame) (k : Z * Z)
    : GroupedRow :=
  mask_incomplete min_days
    (aggregate col (k, filter (fun r => year_month r = k) rows)).

(** The entry the code computes for a month that occurs in the frame. *)
Definition month_entry col (min_days : Z) rows (m : Z) : float64 :=
  series_mean
    (g_mean <$> filter (fun g => g_month g = m)
                  (grouped_row col min_days rows
                     <$> group_keys ym_le year_month rows)).

(** An entry of a profile is unset when it holds no number. *)
Definition unset (e : option float64) : Prop :=
  e = None \/ e = Some NaN.

#[global] Instance unset_dec e : Decision (unset e).
Proof.
  unfold unset. destruct e as [[|q]|].
  - left. by right.
  - right. intros [?|?]; discriminate.
  - left. by left.
Defined.

End MonthlyAggregatorSpec.

(** ** Concrete windows used to exercise the definitions *)

Module Examples.
Import Py WeatherData.

Definition daily (y m d : Z) (t : float64) : DailyRecord :=
  {| time := {| year := y; month := m; day := d |}; temp := t; wspd := t |}.

(** [n] consecutive days of a month, with the cell given per day. *)
Definition days (y m n : Z) (t : Z -> float64) : DataFrame :=
  (fun d => daily y m d (t d)) <$> seqZ 1 n.

Definition station (rows : DataFrame) : meteostat :=
  {| _METEOSTAT_AVAILABLE := true;
     ms_daily_fetch := fun _ _ _ _ => Some rows |}.

(** January 2020 complete (31 of 31 days), January 2021 with 5 valid
    days of 31. *)
Definition two_januaries : DataFrame :=
  days 2020 1 31 (fun d => Num (inject_Z (260 + d)))
  ++ days 2021 1 31 (fun d => if decide (d <= 5) then Num 300 else NaN).

(** One valid January day in 2020 and one January day without a value
    in 2021. *)
Definition one_valid_one_missing : DataFrame :=
  [daily 2020 1 1 (Num 10); daily 2021 1 1 NaN].

(** A single January day without a value. *)
Definition one_missing : DataFrame := [daily 2020 1 1 NaN].

(** Five January days only: no month reaches 23 days. *)
Definition sparse_january : DataFrame :=
  days 2023 1 5 (fun _ => Num 280).

(** An incomplete January, then February and March complete and equal. *)
Definition tied_months : DataFrame :=
  days 2023 1 5 (fun _ => Num 280)
  ++ days 2023 2 28 (fun _ => Num 270)
  ++ days 2023 3 31 (fun _ => Num 270).

(** Geocoding: a cache file that already holds Fredericton. *)
Definition fredericton : Q * Q := (45966 # 1000, - (66646 # 1000))%Q.

Definition fredericton_store (read_ok write_ok : bool)
    : Geocoding.connection :=
  {| Geocoding.closed := false;
     Geocoding.read_fault := negb read_ok;
     Geocoding.write_fault := negb write_ok;
     Geocoding.geopy := {[ "Fredericton, NB" := fredericton ]} |}.

Definition houston : Q * Q := (2976 # 100, - (9537 # 100))%Q.

(** The provider knows Houston only. *)
Definition knows_houston (address : string) : Geocoding.provider_reply :=
  if decide (address = "Houston, TX")
  then Geocoding.Location houston.1 houston.2
  else Geocoding.NoMatch.

Definition geo_env (available : bool)
    (connect : result Geocoding.connection) : Geocoding.environment :=
  {| Geocoding._GEOPY_AVAILABLE := available;
     Geocoding._data_dir := "";
     Geocoding.nominatim := knows_houston;
     Geocoding.sqlite3_connect := fun _ => connect |}.

(** The globals of a process that has not geocoded anything yet. *)
Definition fresh_globals : Geocoding.globals :=
  {| Geocoding._geolocator := false;
     Geocoding._geopy_cache := None;
     Geocoding.trace := [] |}.

Definition houston_cache : Geocoding.SimpleGeolocatorCache :=
  {| Geocoding.file_path := "cache.sqlite3";
     Geocoding.conn := Geocoding.new_database |}.

(** Stations: a small directory and two stations near a point. *)
Definition a_station (i n : string) (c r : option string) : Stations.Station :=
  {| Stations.id := i; Stations.name := n;
     Stations.country := c; Stations.region := r;
     Stations.latitude := NaN; Stations.longitude := NaN;
     Stations.elevation := NaN; Stations.timezone := None |}.

Definition directory : Stations.meteostat :=
  {| Stations._METEOSTAT_AVAILABLE := true;
     Stations.stations_nearby := fun _ _ _ =>
       [ {| Stations.station :=
              a_station "72243" "Houston" (Some "US") (Some "TX");
            Stations.distance := Num 12000 |};
         {| Stations.station :=
              a_station "71700" "Fredericton" (Some "CA") (Some "NB");
            Stations.distance := NaN |} ];
     Stations.stations_meta :=
       [ a_station "72243" "Houston" (Some "US") (Some "TX");
         a_station "71700" "Fredericton" (Some "CA") (Some "NB");
         a_station "72259" "Dallas" (Some "US") (Some "TX") ];
     Stations.str_float := fun _ => "" |}.

End Examples.

(** * Facts *)

(** ** Degree days *)

Section degree_days.
Import Calculations.
Local Open Scope Q_scope.

Lemma py_max_Qmax a b : py_max a b == Qmax a b.
Proof.
  unfold py_max. destruct (Qlt_le_dec a b) as [Hlt | Hle].
  - symmetry. apply Q.max_r. by apply Qlt_le_weak.
  - symmetry. by apply Q.max_l.
Qed.

(** C9. Without truncation heating degree days are the negation of
    cooling degree days; with truncation they are [max(0, T_base - T)]
    (and cooling degree days are [max(0, T - T_base)]).  Both are plain
    functions of their three arguments: every input has a result, and
    there is neither an error case nor a state. *)
Theorem degree_days_relations (T T_base : Q) :
  heating_degree_days T T_base false == - cooling_degree_days T T_base false
  /\ heating_degree_days T T_base true == Qmax 0 (T_base - T)
  /\ cooling_degree_days T T_base true == Qmax 0 (T - T_base)
  /\ 0 <= heating_degree_days T T_base true
  /\ 0 <= cooling_degree_days T T_base true.
Proof.
  split_and!.
  - unfold heating_degree_days, cooling_degree_days. ring.
  - apply py_max_Qmax.
  - apply py_max_Qmax.
  - unfold heating_degree_days. rewrite py_max_Qmax. apply Q.le_max_l.
  - unfold cooling_degree_days. rewrite py_max_Qmax. apply Q.le_max_l.
Qed.

(** The examples of the docstrings, with the default base. *)
Example heating_cold_day :
  heating_degree_days 280 default_T_base true == 11483 # 1000.
Proof. by vm_compute. Qed.

Example heating_warm_day :
  heating_degree_days 300 default_T_base true == 0
  /\ heating_degree_days 300 default_T_base false == - (8517 # 1000).
Proof. by vm_compute. Qed.

Example cooling_days :
  cooling_degree_days 300 default_T_base true == 8517 # 1000
  /\ cooling_degree_days 280 default_T_base true == 0
  /\ cooling_degree_days 280 default_T_base false == - (11483 # 1000).
Proof. by vm_compute. Qed.
End degree_days.

(** ** Lists, grouping and series *)

Section list_facts.
Context {A B : Type}.

Lemma filter_fmap_comm (f : A -> B) (P : B -> Prop)
    `{!forall y, Decision (P y)} (l : list A) :
  filter P (f <$> l) = f <$> filter (fun x => P (f x)) l.
Proof.
  induction l as [|x l IH]; [done|].
  rewrite fmap_cons, !filter_cons. simpl.
  destruct (decide (P (f x))); by rewrite IH.
Qed.

Lemma omap_select (h : A -> option B) (g : A -> B) (P : A -> Prop)
    `{!forall x, Decision (P x)} (l : list A) :
  (forall x, h x = if decide (P x) then Some (g x) else None) ->
  omap h l = g <$> filter P l.
Proof.
  intros Hh. induction l as [|x l IH]; [done|].
  rewrite filter_cons. csimpl. rewrite Hh, IH.
  by destruct (decide (P x)).
Qed.

Lemma omap_filter_absorb (h : A -> option B) (P : A -> Prop)
    `{!forall x, Decision (P x)} (l : list A) :
  (forall x, ~ P x -> h x = None) ->
  omap h (filter P l) = omap h l.
Proof.
  intros Hh. induction l as [|x l IH]; [done|].
  rewrite filter_cons. destruct (decide (P x)) as [HP|HP]; csimpl.
  - by rewrite IH.
  - by rewrite (Hh x HP).
Qed.

Lemma omap_fmap_compose {C : Type} (h : B -> option C) (f : A -> B)
    (l : list A) :
  omap h (f <$> l) = omap (fun x => h (f x)) l.
Proof.
  induction l as [|x l IH]; [done|]. csimpl. by rewrite IH.
Qed.

Lemma StronglySorted_filter (R : relation A) (P : A -> Prop)
    `{!forall x, Decision (P x)} (l : list A) :
  StronglySorted R l -> StronglySorted R (filter P l).
Proof.
  induction 1 as [|x l Hl IH Hx]; [constructor|].
  rewrite filter_cons. destruct (decide (P x)); [|done].
  constructor; [done|].
  apply Forall_forall. intros y [_ Hy]%list_elem_of_filter.
  by eapply Forall_forall in Hx.
Qed.
End list_facts.

Section groupby_facts.
Import WeatherData.
Context {A K : Type} `{EqDecision K}.
Context (R : relation K) `{!RelDecision R}.

Lemma elem_of_group_keys (key : A -> K) (l : list A) (k : K) :
  k ∈ group_keys R key l <-> k ∈ key <$> l.
Proof.
  unfold group_keys.
  by rewrite merge_sort_Permutation, elem_of_remove_dups.
Qed.

Lemma NoDup_group_keys (key : A -> K) (l : list A) :
  NoDup (group_keys R key l).
Proof.
  unfold group_keys. rewrite merge_sort_Permutation.
  apply NoDup_remove_dups.
Qed.

Lemma StronglySorted_group_keys `{!Transitive R, !Total R}
    (key : A -> K) (l : list A) :
  StronglySorted R (group_keys R key l).
Proof. apply StronglySorted_merge_sort; apply _. Qed.

(** A duplicate-free sorted list with the keys of the frame is the list
    of group keys. *)
Lemma group_keys_unique `{!Transitive R, !Total R, !AntiSymm (=) R}
    (key : A -> K) (l : list A) (ks : list K) :
  NoDup ks -> StronglySorted R ks ->
  (forall k, k ∈ ks <-> k ∈ key <$> l) ->
  ks = group_keys R key l.
Proof.
  intros Hnd Hs Hel.
  apply (StronglySorted_unique R); [done| |].
  - by apply StronglySorted_group_keys.
  - apply NoDup_Permutation; [done|apply NoDup_group_keys|].
    intros k. by rewrite Hel, elem_of_group_keys.
Qed.

Lemma series_get_keyed {V : Type} (f : Z -> V) (ks : list Z) (m : Z) :
  series_get ((fun k => (k, f k)) <$> ks) m
  = if decide (m ∈ ks) then Some (f m) else None.
Proof.
  induction ks as [|k ks IH]; csimpl.
  - destruct (decide (m ∈ [])) as [Hin|]; [|done]. by inversion Hin.
  - destruct (decide (k = m)) as [->|Hne].
    + rewrite decide_True; [done|]. by left.
    + rewrite IH. destruct (decide (m ∈ ks)) as [Hin|Hin].
      * rewrite decide_True; [done|]. by right.
      * rewrite decide_False; [done|].
        intros [?|?]%elem_of_cons; congruence.
Qed.
End groupby_facts.

(** [Series.get] on an aggregated [groupby] over an integer key. *)
Lemma series_get_groupby {A V : Type} (key : A -> Z) (h : list A -> V)
    (l : list A) (m : Z) :
  WeatherData.series_get
    ((fun g => (g.1, h g.2)) <$> WeatherData.groupby Z.le key l) m
  = if decide (m ∈ key <$> l)
    then Some (h (filter (fun r => key r = m) l)) else None.
Proof.
  unfold WeatherData.groupby. rewrite <- list_fmap_compose.
  unfold compose. simpl.
  rewrite (series_get_keyed (fun k => h (filter (fun r => key r = k) l))).
  apply decide_ext, elem_of_group_keys.
Qed.

Section ym_order.
Import WeatherData.

#[global] Instance ym_le_trans : Transitive ym_le.
Proof. intros [a1 a2] [b1 b2] [c1 c2]; unfold ym_le; simpl; lia. Qed.

#[global] Instance ym_le_total : Total ym_le.
Proof. intros [a1 a2] [b1 b2]; unfold ym_le; simpl; lia. Qed.

#[global] Instance ym_le_antisymm : AntiSymm (=) ym_le.
Proof.
  intros [a1 a2] [b1 b2]; unfold ym_le; simpl; intros ? ?.
  f_equal; lia.
Qed.
End ym_order.

(** ** The monthly aggregation *)

Section monthly_profile_facts.
Import WeatherData MonthlyAggregatorSpec.
Context (col : DailyRecord -> float64) (min_days : Z) (rows : DataFrame).

Local Abbreviation valid_values := (valid_values col rows).
Local Abbreviation grouped_row := (grouped_row col min_days rows).
Local Abbreviation month_entry := (month_entry col min_days rows).
Local Abbreviation qualifying_means := (qualifying_means col min_days rows).

Lemma valid_count_length y m :
  valid_count col rows y m = Z.of_nat (length (valid_values y m)).
Proof. done. Qed.

Lemma group_mean_Num y m :
  1 <= valid_count col rows y m ->
  group_mean col rows y m = Num (Qmean (valid_values y m)).
Proof.
  rewrite valid_count_length. unfold group_mean, series_mean.
  fold (valid_values y m). destruct (valid_values y m); simpl; [lia|done].
Qed.

Lemma group_mean_NaN y m :
  valid_count col rows y m < 1 -> group_mean col rows y m = NaN.
Proof.
  rewrite valid_count_length. unfold group_mean, series_mean.
  fold (valid_values y m). destruct (valid_values y m); simpl; [done|lia].
Qed.

(** A year with a valid sample in month [m] has a record in month [m]. *)
Lemma valid_count_has_group y m :
  1 <= valid_count col rows y m -> (y, m) ∈ year_month <$> rows.
Proof.
  rewrite valid_count_length. unfold valid_values, cells.
  destruct (filter _ rows) as [|r l] eqn:Hf; simpl; [lia|]. intros _.
  assert (r ∈ filter (fun r => year_month r = (y, m)) rows) as Hr
    by (rewrite Hf; by left).
  apply list_elem_of_filter in Hr as [<- Hr].
  by apply list_elem_of_fmap_2.
Qed.

Lemma grouped_row_month k : g_month (grouped_row k) = k.2.
Proof.
  unfold grouped_row, mask_incomplete. by destruct (decide _).
Qed.

Lemma grouped_row_mean y m :
  g_mean (grouped_row (y, m))
  = if decide (valid_count col rows y m < min_days) then NaN
    else group_mean col rows y m.
Proof.
  unfold grouped_row, mask_incomplete. simpl.
  fold (cells col rows y m). fold (valid_count col rows y m).
  by destruct (decide _).
Qed.

Lemma grouped_rows :
  mask_incomplete min_days
    <$> (aggregate col <$> groupby ym_le year_month rows)
  = grouped_row <$> group_keys ym_le year_month rows.
Proof. unfold groupby. by rewrite <- !list_fmap_compose. Qed.

(** The keys of month [m] are the years that have a record in it, in
    ascending order. *)
Lemma month_keys m :
  filter (fun k : Z * Z => k.2 = m) (group_keys ym_le year_month rows)
  = (fun y => (y, m))
      <$> filter (fun y => (y, m) ∈ year_month <$> rows) (years rows).
Proof.
  apply (StronglySorted_unique ym_le).
  - apply StronglySorted_filter, StronglySorted_group_keys; apply _.
  - apply (StronglySorted_fmap _ Z.le).
    + intros y1 y2 Hle. unfold ym_le. simpl. lia.
    + apply StronglySorted_filter, StronglySorted_group_keys; apply _.
  - apply NoDup_Permutation.
    + apply NoDup_filter, NoDup_group_keys.
    + apply NoDup_fmap; [by intros ?? [= ->]|].
      apply NoDup_filter, NoDup_group_keys.
    + intros [y m']. rewrite list_elem_of_filter, elem_of_group_keys.
      simpl. split.
      * intros [-> Hin]. apply list_elem_of_fmap. exists y. split; [done|].
        apply list_elem_of_filter. split; [done|].
        apply elem_of_group_keys.
        apply list_elem_of_fmap in Hin as (r & Hk & Hr).
        apply list_elem_of_fmap. exists r. split; [|done].
        unfold year_month in Hk. congruence.
      * intros (y' & [= -> ->] & Hy)%list_elem_of_fmap.
        by apply list_elem_of_filter in Hy as [? _].
Qed.

Lemma monthly_profile_lookup m :
  1 <= m <= 12 ->
  monthly_profile col min_days (Some rows) !! Z.to_nat (m - 1)
  = Some (if decide (m ∈ (fun r => month (time r)) <$> rows)
          then Some (month_entry m) else None).
Proof.
  intros Hm. destruct rows as [|r rs] eqn:Hrows.
  { unfold monthly_profile. rewrite lookup_replicate_2 by lia.
    rewrite decide_False; [done|]. by intros ?%elem_of_nil. }
  rewrite <- Hrows. unfold monthly_profile. rewrite Hrows at 1.
  rewrite list_lookup_fmap, lookup_seqZ_lt by lia. simpl.
  replace (1 + Z.of_nat (Z.to_nat (m - 1))) with m by lia.
  rewrite grouped_rows.
  rewrite (series_get_groupby g_month (fun gs => series_mean (g_mean <$> gs))).
  f_equal. apply decide_ext.
  rewrite <- list_fmap_compose, !list_elem_of_fmap. split.
  - intros (k & -> & Hk). apply elem_of_group_keys in Hk.
    apply list_elem_of_fmap in Hk as (r' & -> & Hr').
    exists r'. simpl. by rewrite grouped_row_month.
  - intros (r' & -> & Hr'). exists (year_month r'). split.
    + simpl. by rewrite grouped_row_month.
    + apply elem_of_group_keys. by apply list_elem_of_fmap_2.
Qed.

Lemma month_entry_means m :
  month_entry m = match qualifying_means m with
                  | [] => NaN
                  | q :: qs => Num (Qmean (q :: qs))
                  end.
Proof.
  unfold month_entry, series_mean.
  rewrite filter_fmap_comm.
  rewrite (list_filter_iff _ (fun k : Z * Z => k.2 = m))
    by (intros k; by rewrite grouped_row_month).
  rewrite month_keys, <- !list_fmap_compose, omap_fmap_compose.
  rewrite (omap_filter_absorb _ (fun y => (y, m) ∈ year_month <$> rows)).
  2:{ intros y Hy. simpl. rewrite grouped_row_mean.
      destruct (decide _); [done|]. rewrite group_mean_NaN; [done|].
      destruct (decide (1 <= valid_count col rows y m)) as [H1|H1]; [|lia].
      by apply valid_count_has_group in H1. }
  rewrite (omap_select _ (fun y => Qmean (valid_values y m))
             (fun y => Z.max 1 min_days <= valid_count col rows y m)).
  2:{ intros y. simpl. rewrite grouped_row_mean.
      destruct (decide (valid_count col rows y m < min_days)).
      - rewrite decide_False by lia. done.
      - destruct (decide (1 <= valid_count col rows y m)).
        + rewrite group_mean_Num by done. rewrite decide_True by lia. done.
        + rewrite group_mean_NaN by lia. rewrite decide_False by lia. done. }
  done.
Qed.

Lemma mean_of_means_qualifying m :
  mean_of_means col rows (Z.max 1 min_days) m
  = match qualifying_means m with
    | [] => NaN
    | q :: qs => Num (Qmean (q :: qs))
    end.
Proof.
  unfold mean_of_means, arithmetic_mean, qualifying_means.
  rewrite (mapM_Some_2 _ _
             ((fun y => Qmean (valid_values y m))
                <$> qualifying_years col rows (Z.max 1 min_days) m)); [done|].
  apply Forall2_fmap, Forall_Forall2_diag, Forall_forall.
  intros y [Hy _]%list_elem_of_filter.
  rewrite group_mean_Num by lia. done.
Qed.

End monthly_profile_facts.

(** ** Claims on the monthly aggregation *)

Section monthly_average_claims.
Import Py WeatherData MonthlyAggregatorSpec.

Lemma month_average_of_eq fld ms station sy ey md si :
  _METEOSTAT_AVAILABLE ms = true ->
  month_average_of fld ms station sy ey md si
  = Return (monthly_profile (column fld) md (window ms station sy ey si)).
Proof.
  intros Hav.
  destruct fld; unfold month_average_of, month_average_temperature,
    month_average_windspeed, month_average, get_daily_data,
    _check_meteostat; by rewrite Hav.
Qed.

Lemma Qmean_singleton (x : Q) : (Qmean [x] == x)%Q.
Proof. unfold Qmean, Qsum. simpl. field. Qed.

Lemma qualifying_means_nil col md rows m :
  qualifying_means col md rows m = []
  <-> qualifying_years col rows (Z.max 1 md) m = [].
Proof.
  unfold qualifying_means. split; [apply fmap_nil_inv|by intros ->].
Qed.

Lemma qualifying_year_month col md rows m y :
  y ∈ qualifying_years col rows (Z.max 1 md) m ->
  m ∈ (fun r => month (time r)) <$> rows.
Proof.
  intros [Hy _]%list_elem_of_filter.
  assert (1 <= valid_count col rows y m) as H1 by lia.
  apply valid_count_has_group, list_elem_of_fmap in H1 as (r & Hk & Hr).
  apply list_elem_of_fmap. exists r. split; [|done].
  unfold year_month in Hk. congruence.
Qed.

(** The entry of month [m] in terms of the qualifying years. *)
Lemma monthly_profile_entry col md rows m :
  1 <= m <= 12 ->
  monthly_profile col md (Some rows) !! Z.to_nat (m - 1)
  = Some (match qualifying_means col md rows m with
          | [] => if decide (m ∈ (fun r => month (time r)) <$> rows)
                  then Some NaN else None
          | q :: qs => Some (Num (Qmean (q :: qs)))
          end).
Proof.
  intros Hm. rewrite monthly_profile_lookup by done. f_equal.
  rewrite month_entry_means.
  destruct (qualifying_means col md rows m) as [|q qs] eqn:Hq; [done|].
  rewrite decide_True; [done|].
  destruct (qualifying_years col rows (Z.max 1 md) m) as [|y ys] eqn:Hy.
  { apply qualifying_means_nil in Hy. congruence. }
  apply (qualifying_year_month col md rows m y). rewrite Hy. by left.
Qed.

(** C1 (amended). For either field and every threshold, when at least
    one year has a group for month [m] with a valid sample and at least
    [min_days] valid samples, the profile entry of that month is the
    unweighted arithmetic mean of the group means of exactly those
    years, each with weight one; when a single year qualifies, the
    entry equals that year's mean alone. *)
Theorem month_average_mean_of_means
    (fld : field) (ms : meteostat) (station : string)
    (sy ey md : Z) (si : bool) (rows : DataFrame) (m : Z) :
  _METEOSTAT_AVAILABLE ms = true ->
  window ms station sy ey si = Some rows ->
  1 <= m <= 12 ->
  qualifying_years (column fld) rows (Z.max 1 md) m <> [] ->
  exists profile q,
    month_average_of fld ms station sy ey md si = Return profile
    /\ profile !! Z.to_nat (m - 1) = Some (Some (Num q))
    /\ mean_of_means (column fld) rows (Z.max 1 md) m = Num q
    /\ (forall yA,
          qualifying_years (column fld) rows (Z.max 1 md) m = [yA] ->
          exists qA, group_mean (column fld) rows yA m = Num qA
                     /\ (q == qA)%Q).
Proof.
  intros Hav Hw Hm Hq.
  rewrite month_average_of_eq, Hw by done.
  pose proof (monthly_profile_entry (column fld) md rows m Hm) as He.
  pose proof (mean_of_means_qualifying (column fld) md rows m) as Hs.
  destruct (qualifying_means (column fld) md rows m) as [|q qs] eqn:Hqm.
  { by apply qualifying_means_nil in Hqm. }
  eexists _, (Qmean (q :: qs)). repeat split; [done..|].
  intros yA HyA. exists (Qmean (valid_values (column fld) rows yA m)). split.
  - apply group_mean_Num.
    assert (yA ∈ qualifying_years (column fld) rows (Z.max 1 md) m) as Hin
      by (rewrite HyA; by left).
    apply list_elem_of_filter in Hin as [? _]. lia.
  - unfold qualifying_means in Hqm. rewrite HyA in Hqm.
    injection Hqm as <- <-. apply Qmean_singleton.
Qed.

(** January 2020 has 31 of 31 valid days, January 2021 has 5 of 31;
    with [min_days = 23] the January entry is the mean of 2020 alone. *)
Lemma month_average_mean_of_means_witness :
  exists profile q,
    month_average_of Temperature (Examples.station Examples.two_januaries)
      "72243" 2020 2021 23 true = Return profile
    /\ profile !! Z.to_nat (1 - 1) = Some (Some (Num q))
    /\ mean_of_means temp Examples.two_januaries (Z.max 1 23) 1 = Num q
    /\ (forall yA,
          qualifying_years temp Examples.two_januaries (Z.max 1 23) 1
          = [yA] ->
          exists qA, group_mean temp Examples.two_januaries yA 1 = Num qA
                     /\ (q == qA)%Q).
Proof.
  apply (month_average_mean_of_means Temperature
           (Examples.station Examples.two_januaries) "72243" 2020 2021 23
           true Examples.two_januaries 1).
  - reflexivity.
  - reflexivity.
  - lia.
  - vm_compute. discriminate.
Defined.

(** C1 as stated fails for a threshold below one: with
    [min_days = 0] the year 2021, whose January holds no valid sample,
    has a count (0) that reaches the threshold, but its group has no
    mean and the code leaves it out: the entry is the mean of 2020
    alone and not the mean over both years. *)
Lemma mean_of_means_threshold_zero :
  qualifying_years temp Examples.one_valid_one_missing 0 1 = [2020; 2021]
  /\ month_average_of Temperature
       (Examples.station Examples.one_valid_one_missing)
       "72243" 2020 2021 0 true
     = Return (Some (Num (10 # 1)) :: replicate 11 None)
  /\ group_mean temp Examples.one_valid_one_missing 2020 1 = Num (10 # 1)
  /\ group_mean temp Examples.one_valid_one_missing 2021 1 = NaN
  /\ mean_of_means temp Examples.one_valid_one_missing 0 1 = NaN
  /\ ~ (exists profile,
          month_average_of Temperature
            (Examples.station Examples.one_valid_one_missing)
            "72243" 2020 2021 0 true = Return profile
          /\ profile !! Z.to_nat (1 - 1)
             = Some (Some (mean_of_means temp
                             Examples.one_valid_one_missing 0 1))).
Proof.
  split_and!; try by vm_compute.
  intros (profile & Hp & He). vm_compute in Hp, He.
  injection Hp as <-. discriminate.
Qed.

Lemma monthly_profile_default col md df :
  monthly_profile col md df = monthly_profile col md (Some (default [] df)).
Proof. by destruct df. Qed.

Lemma length_monthly_profile col md df :
  length (monthly_profile col md df) = 12%nat.
Proof.
  destruct df as [[|r rs]|]; unfold monthly_profile;
    by rewrite ?length_replicate, ?length_fmap, ?length_seqZ.
Qed.

Lemma qualifying_years_all_NaN col md rows m :
  (forall r, r ∈ rows -> col r = NaN) ->
  qualifying_years col rows (Z.max 1 md) m = [].
Proof.
  intros Hnan. unfold qualifying_years.
  destruct (filter _ (years rows)) as [|y ys] eqn:Hf; [done|].
  assert (y ∈ filter
            (fun y => Z.max 1 md <= valid_count col rows y m) (years rows))
    as [Hy _]%list_elem_of_filter by (rewrite Hf; by left).
  assert (valid_values col rows y m = []) as Hv.
  { unfold valid_values, cells. rewrite omap_fmap_compose.
    destruct (omap _ _) as [|q qs] eqn:Ho; [done|].
    assert (q ∈ omap (fun x => notna (col x))
                  (filter (fun r => year_month r = (y, m)) rows))
      as (r & Hr & Hq)%list_elem_of_omap by (rewrite Ho; by left).
    apply list_elem_of_filter in Hr as [_ Hr].
    by rewrite (Hnan r Hr) in Hq. }
  rewrite valid_count_length, Hv in Hy. simpl in Hy. lia.
Qed.

(** C2 (amended). The profile always has twelve entries; the entry of
    a month is unset exactly when no year of the window has a group for
    that month with a valid sample and at least [min_days] valid
    samples; a window without records gives twelve [None] entries and
    no error; a field absent throughout gives a profile that is unset
    everywhere. *)
Theorem month_average_unset_iff
    (fld : field) (ms : meteostat) (station : string)
    (sy ey md : Z) (si : bool) :
  _METEOSTAT_AVAILABLE ms = true ->
  exists profile,
    month_average_of fld ms station sy ey md si = Return profile
    /\ length profile = 12%nat
    /\ (forall m e,
          1 <= m <= 12 -> profile !! Z.to_nat (m - 1) = Some e ->
          (unset e
           <-> qualifying_years (column fld)
                 (default [] (window ms station sy ey si))
                 (Z.max 1 md) m = []))
    /\ (default [] (window ms station sy ey si) = [] ->
        profile = replicate 12 None)
    /\ ((forall r, r ∈ default [] (window ms station sy ey si) ->
                   column fld r = NaN) ->
        Forall unset profile).
Proof.
  intros Hav. rewrite month_average_of_eq by done.
  rewrite monthly_profile_default.
  set (rows := default [] (window ms station sy ey si)).
  assert (forall m e,
            1 <= m <= 12 ->
            monthly_profile (column fld) md (Some rows) !! Z.to_nat (m - 1)
            = Some e ->
            (unset e
             <-> qualifying_years (column fld) rows (Z.max 1 md) m = []))
    as Hiff.
  { intros m e Hm. rewrite monthly_profile_entry by done.
    intros [= <-]. rewrite <- qualifying_means_nil.
    destruct (qualifying_means (column fld) md rows m) as [|q qs].
    - split; [done|]. intros _. unfold unset.
      destruct (decide _); auto.
    - split; [|done]. intros [?|?]; discriminate. }
  eexists. split; [done|]. split; [apply length_monthly_profile|].
  split; [done|]. split; [by intros ->|].
  intros Hnan. apply Forall_lookup. intros i e He.
  assert (i < 12)%nat as Hi.
  { rewrite <- (length_monthly_profile (column fld) md (Some rows)).
    by eapply lookup_lt_Some. }
  apply (Hiff (Z.of_nat i + 1) e); [lia| |].
  - by replace (Z.to_nat (Z.of_nat i + 1 - 1)) with i by lia.
  - by apply qualifying_years_all_NaN.
Qed.

Lemma month_average_unset_iff_witness :
  exists profile,
    month_average_of Temperature (Examples.station Examples.two_januaries)
      "72243" 2020 2021 23 true = Return profile
    /\ length profile = 12%nat
    /\ (forall m e,
          1 <= m <= 12 -> profile !! Z.to_nat (m - 1) = Some e ->
          (unset e
           <-> qualifying_years (column Temperature)
                 (default []
                    (window (Examples.station Examples.two_januaries)
                       "72243" 2020 2021 true))
                 (Z.max 1 23) m = []))
    /\ (default []
          (window (Examples.station Examples.two_januaries)
             "72243" 2020 2021 true) = [] ->
        profile = replicate 12 None)
    /\ ((forall r,
           r ∈ default []
                 (window (Examples.station Examples.two_januaries)
                    "72243" 2020 2021 true) ->
           column Temperature r = NaN) ->
        Forall unset profile).
Proof.
  apply (month_average_unset_iff Temperature
           (Examples.station Examples.two_januaries) "72243" 2020 2021 23
           true).
  reflexivity.
Defined.

(** C2 as stated fails for a threshold below one: with
    [min_days = 0] a January whose only record holds no value has a
    group whose count (0) reaches the threshold, and yet its entry is
    unset. *)
Lemma unset_entry_threshold_zero :
  month_average_of Temperature (Examples.station Examples.one_missing)
    "72243" 2020 2020 0 true
  = Return (Some NaN :: replicate 11 None)
  /\ qualifying_years temp Examples.one_missing 0 1 = [2020]
  /\ ~ (forall m e,
          1 <= m <= 12 ->
          (Some NaN :: replicate 11 None) !! Z.to_nat (m - 1) = Some e ->
          (unset e <-> qualifying_years temp Examples.one_missing 0 m = [])).
Proof.
  split_and!; try by vm_compute.
  intros H. destruct (H 1 (Some NaN)) as [Hu _]; [lia|done|].
  specialize (Hu (or_intror eq_refl)). vm_compute in Hu. discriminate.
Qed.

End monthly_average_claims.

(** ** Claims on the geocoding cache and on [geocode] *)

Section geocoding_claims.
Import Py Geocoding.

Lemma usable_with_rows self rows : usable self -> usable (with_rows self rows).
Proof. done. Qed.

Lemma cached_address_usable self a :
  usable self -> cached_address self a = Return (geopy (conn self) !! a).
Proof. intros (Hc & Hr & _). unfold cached_address. by rewrite Hc, Hr. Qed.

Lemma cache_address_usable self a lat lon :
  usable self ->
  cache_address self a lat lon
  = Return (with_rows self (<[a := (lat, lon)]> (geopy (conn self)))).
Proof. intros (Hc & _ & Hw). unfold cache_address. by rewrite Hc, Hw. Qed.

Lemma len_usable self :
  usable self -> __len__ self = Return (size (geopy (conn self))).
Proof. intros (Hc & Hr & _). unfold __len__. by rewrite Hc, Hr. Qed.

Lemma store_all_usable entries self :
  usable self ->
  exists c, store_all entries self = Return c /\ usable c
            /\ dom (geopy (conn c))
               = dom (geopy (conn self)) ∪ list_to_set entries.*1.
Proof.
  unfold store_all. revert self.
  induction entries as [|[a [lat lon]] entries IH]; intros self Hu.
  - exists self. split; [done|]. split; [done|].
    by rewrite fmap_nil, list_to_set_nil, (right_id_L ∅ (∪)).
  - simpl. rewrite cache_address_usable by done.
    destruct (IH (with_rows self (<[a:=(lat, lon)]> (geopy (conn self)))))
      as (c & Hc & Huc & Hdom); [done|].
    exists c. split; [done|]. split; [done|].
    rewrite Hdom. cbn [geopy conn with_rows].
    by rewrite dom_insert_L, (comm_L (∪) {[a]}), (assoc_L (∪)).
Qed.

Lemma size_list_to_set_remove_dups (l : list string) :
  size (list_to_set l : gset string) = length (remove_dups l).
Proof.
  rewrite <- (size_list_to_set (C := gset string) (remove_dups l))
    by apply NoDup_remove_dups.
  f_equal. apply set_eq. intros x.
  by rewrite !elem_of_list_to_set, elem_of_remove_dups.
Qed.

(** C7. On a usable cache, [cache_address] followed by
    [cached_address] of the same address gives exactly the stored
    pair; a second store to the same address replaces the pair and
    leaves the size unchanged; an absent address, also in a new or a
    cleared store, is answered by [None] and not by an exception; and
    after any sequence of stores into a cleared cache the size is the
    number of distinct addresses. *)
Theorem cache_store_lookup
    (self : SimpleGeolocatorCache) (a : string) (lat lon lat' lon' : Q)
    (entries : list (string * (Q * Q))) :
  usable self ->
  (exists c1 c2,
      cache_address self a lat lon = Return c1
      /\ cached_address c1 a = Return (Some (lat, lon))
      /\ cache_address c1 a lat' lon' = Return c2
      /\ cached_address c2 a = Return (Some (lat', lon'))
      /\ __len__ c2 = __len__ c1)
  /\ (geopy (conn self) !! a = None -> cached_address self a = Return None)
  /\ (exists c, SimpleGeolocatorCache_init
                  (fun _ => Return new_database) (file_path self)
                = Return c
                /\ cached_address c a = Return None)
  /\ (exists c0 cn,
        clear self = Return c0
        /\ cached_address c0 a = Return None
        /\ __len__ c0 = Return 0%nat
        /\ store_all entries c0 = Return cn
        /\ __len__ cn = Return (length (remove_dups entries.*1))).
Proof.
  intros Hu. split; [|split; [|split]].
  - eexists _, _. rewrite cache_address_usable by done.
    split; [done|].
    rewrite cached_address_usable by done. simpl.
    rewrite lookup_insert_eq. split; [done|].
    rewrite cache_address_usable by done. split; [done|].
    rewrite cached_address_usable by done. simpl.
    rewrite lookup_insert_eq. split; [done|].
    rewrite !len_usable by done. simpl.
    by rewrite insert_insert_eq, !map_size_insert.
  - intros Hnone. by rewrite cached_address_usable, Hnone.
  - eexists. split; [done|]. done.
  - destruct Hu as (Hc & Hr & Hw).
    assert (usable (with_rows self ∅)) as Hu0 by done.
    destruct (store_all_usable entries _ Hu0) as (cn & Hcn & Hucn & Hdom).
    exists (with_rows self ∅), cn.
    split; [unfold clear; by rewrite Hc, Hw|].
    split; [by rewrite cached_address_usable|].
    split; [rewrite len_usable by done; simpl; by rewrite map_size_empty|].
    split; [done|].
    rewrite len_usable by done. f_equal.
    rewrite <- size_dom, Hdom. simpl.
    rewrite dom_empty_L, (left_id_L ∅ (∪)).
    apply size_list_to_set_remove_dups.
Qed.

Lemma cache_store_lookup_witness :
  (exists c1 c2,
      cache_address Examples.houston_cache "Houston, TX"
        (2976 # 100) (- (9537 # 100)) = Return c1
      /\ cached_address c1 "Houston, TX"
         = Return (Some ((2976 # 100)%Q, (- (9537 # 100))%Q))
      /\ cache_address c1 "Houston, TX" 30 (-95) = Return c2
      /\ cached_address c2 "Houston, TX" = Return (Some (30%Q, (-95)%Q))
      /\ __len__ c2 = __len__ c1)
  /\ (geopy (conn Examples.houston_cache) !! "Houston, TX" = None ->
      cached_address Examples.houston_cache "Houston, TX" = Return None)
  /\ (exists c, SimpleGeolocatorCache_init
                  (fun _ => Return new_database)
                  (file_path Examples.houston_cache)
                = Return c
                /\ cached_address c "Houston, TX" = Return None)
  /\ (exists c0 cn,
        clear Examples.houston_cache = Return c0
        /\ cached_address c0 "Houston, TX" = Return None
        /\ __len__ c0 = Return 0%nat
        /\ store_all [("Houston, TX", (1, 2)%Q); ("Unknown City", (3, 4)%Q);
                      ("Houston, TX", (5, 6)%Q)] c0 = Return cn
        /\ __len__ cn
           = Return (length (remove_dups
                [("Houston, TX", (1, 2)%Q); ("Unknown City", (3, 4)%Q);
                 ("Houston, TX", (5, 6)%Q)].*1))).
Proof.
  apply (cache_store_lookup Examples.houston_cache "Houston, TX"
           (2976 # 100) (- (9537 # 100)) 30 (-95)
           [("Houston, TX", (1, 2)%Q); ("Unknown City", (3, 4)%Q);
            ("Houston, TX", (5, 6)%Q)]).
  repeat split; reflexivity.
Defined.

(** *** The orchestration *)

Lemma try_cache_lookup env a g :
  (try_cache env a g).1.2
  = match cache_lookup env g a with
    | Return (Some v) => Some v
    | _ => None
    end.
Proof.
  unfold try_cache, cache_lookup.
  destruct (geopy_cache env g) as [[c|e] g']; simpl; [|done].
  by destruct (cached_address c a) as [[v|]|e].
Qed.

Lemma try_cache_provider_calls env a g :
  provider_calls (try_cache env a g).2 = provider_calls g.
Proof.
  unfold try_cache, geopy_cache.
  destruct (_geopy_cache g) as [c|]; simpl.
  - by destruct (cached_address c a).
  - destruct (SimpleGeolocatorCache_init _ _) as [c|e]; simpl; [|done].
    by destruct (cached_address c a).
Qed.

Lemma geocode_unavailable env a g :
  _GEOPY_AVAILABLE env = false ->
  geocode env a g = (Raise (ImportError _GEOPY_MISSING_MSG), g).
Proof. intros Hav. unfold geocode. by rewrite Hav. Qed.

Lemma geocode_hit env a g v :
  _GEOPY_AVAILABLE env = true ->
  cache_lookup env g a = Return (Some v) ->
  geocode env a g = (Return v, (try_cache env a g).2).
Proof.
  intros Hav Hhit. pose proof (try_cache_lookup env a g) as Ht.
  rewrite Hhit in Ht. unfold geocode. rewrite Hav. simpl.
  destruct (try_cache env a g) as [[cache result] g']. simpl in Ht.
  by subst result.
Qed.

(** The result on a miss, whether the miss is genuine or a failure of
    the cache, is decided by the provider alone. *)
Lemma geocode_miss env a g :
  _GEOPY_AVAILABLE env = true ->
  (forall v, cache_lookup env g a <> Return (Some v)) ->
  (geocode env a g).1
  = match nominatim env a with
    | Location latitude longitude => Return (latitude, longitude)
    | NoMatch => Raise (ValueError ("Could not geocode: " +:+ a))
    | ProviderRaises => Raise GeocoderError
    end.
Proof.
  intros Hav Hmiss. pose proof (try_cache_lookup env a g) as Ht.
  unfold geocode, geopy_geolocator. rewrite Hav. simpl.
  destruct (try_cache env a g) as [[cache result] g']. simpl in Ht.
  destruct result as [v|].
  - destruct (cache_lookup env g a) as [[v'|]|e]; try done.
    by destruct (Hmiss v').
  - by destruct (nominatim env a).
Qed.

(** C3 (amended). When geopy is importable, an address that the cache
    holds is answered with the cached pair and the provider is not
    called. *)
Theorem geocode_cache_hit
    (env : environment) (g : globals) (a : string) (v : Q * Q) :
  _GEOPY_AVAILABLE env = true ->
  cache_lookup env g a = Return (Some v) ->
  (geocode env a g).1 = Return v
  /\ provider_calls (geocode env a g).2 = provider_calls g.
Proof.
  intros Hav Hhit. rewrite (geocode_hit env a g v) by done.
  split; [done|]. apply try_cache_provider_calls.
Qed.

Lemma geocode_cache_hit_witness :
  (geocode
     (Examples.geo_env true (Return (Examples.fredericton_store true true)))
     "Fredericton, NB" Examples.fresh_globals).1
  = Return Examples.fredericton
  /\ provider_calls
       (geocode
          (Examples.geo_env true
             (Return (Examples.fredericton_store true true)))
          "Fredericton, NB" Examples.fresh_globals).2
     = provider_calls Examples.fresh_globals.
Proof.
  apply (geocode_cache_hit
           (Examples.geo_env true
              (Return (Examples.fredericton_store true true)))
           Examples.fresh_globals "Fredericton, NB" Examples.fredericton).
  - reflexivity.
  - vm_compute. reflexivity.
Defined.

(** C3 as stated fails when geopy is not importable: the cache holds
    the address, and [geocode] raises instead of returning the pair. *)
Lemma geocode_cache_hit_without_geopy :
  cache_lookup
    (Examples.geo_env false (Return (Examples.fredericton_store true true)))
    Examples.fresh_globals "Fredericton, NB"
  = Return (Some Examples.fredericton)
  /\ (geocode
        (Examples.geo_env false
           (Return (Examples.fredericton_store true true)))
        "Fredericton, NB" Examples.fresh_globals).1
     = Raise (ImportError _GEOPY_MISSING_MSG)
  /\ (geocode
        (Examples.geo_env false
           (Return (Examples.fredericton_store true true)))
        "Fredericton, NB" Examples.fresh_globals).1
     <> Return Examples.fredericton.
Proof. split_and!; by vm_compute. Qed.

(** C10. Without geopy, [geocode] raises the ImportError for every
    address and leaves the globals as they were: the cache singleton is
    neither opened nor read (the trace does not grow), so a pair that the
    cache holds is not returned. *)
Theorem geocode_without_geopy
    (env : environment) (g : globals) (a : string) :
  _GEOPY_AVAILABLE env = false ->
  geocode env a g = (Raise (ImportError _GEOPY_MISSING_MSG), g)
  /\ trace (geocode env a g).2 = trace g
  /\ (forall v, cache_lookup env g a = Return (Some v) ->
                (geocode env a g).1 <> Return v).
Proof.
  intros Hav. rewrite geocode_unavailable by done. by split_and!.
Qed.

Lemma geocode_without_geopy_witness :
  geocode
    (Examples.geo_env false (Return (Examples.fredericton_store true true)))
    "Fredericton, NB" Examples.fresh_globals
  = (Raise (ImportError _GEOPY_MISSING_MSG), Examples.fresh_globals)
  /\ trace
       (geocode
          (Examples.geo_env false
             (Return (Examples.fredericton_store true true)))
          "Fredericton, NB" Examples.fresh_globals).2
     = trace Examples.fresh_globals
  /\ (forall v,
        cache_lookup
          (Examples.geo_env false
             (Return (Examples.fredericton_store true true)))
          Examples.fresh_globals "Fredericton, NB" = Return (Some v) ->
        (geocode
           (Examples.geo_env false
              (Return (Examples.fredericton_store true true)))
           "Fredericton, NB" Examples.fresh_globals).1 <> Return v).
Proof.
  apply (geocode_without_geopy
           (Examples.geo_env false
              (Return (Examples.fredericton_store true true)))
           Examples.fresh_globals "Fredericton, NB").
  reflexivity.
Defined.

(** C6. On a cache miss, [geocode] raises a ValueError exactly when
    geopy is available and the provider has no match, and the message
    carries the address; it raises an ImportError exactly when geopy
    is not available; the two exceptions differ. *)
Theorem geocode_miss_errors
    (env : environment) (g : globals) (a : string) :
  (forall v, cache_lookup env g a <> Return (Some v)) ->
  ((exists msg, (geocode env a g).1 = Raise (ValueError msg))
   <-> _GEOPY_AVAILABLE env = true /\ nominatim env a = NoMatch)
  /\ (forall msg, (geocode env a g).1 = Raise (ValueError msg) ->
                  msg = "Could not geocode: " +:+ a)
  /\ ((exists msg, (geocode env a g).1 = Raise (ImportError msg))
      <-> _GEOPY_AVAILABLE env = false)
  /\ (forall msg msg', ImportError msg <> ValueError msg').
Proof.
  intros Hmiss. destruct (_GEOPY_AVAILABLE env) eqn:Hav.
  - rewrite geocode_miss by done.
    destruct (nominatim env a) eqn:Hp; split_and!; naive_solver.
  - rewrite geocode_unavailable by done. simpl.
    split_and!; naive_solver.
Qed.

Lemma geocode_miss_errors_witness :
  ((exists msg,
       (geocode (Examples.geo_env true (Return new_database))
          "Unknown City" Examples.fresh_globals).1
       = Raise (ValueError msg))
   <-> _GEOPY_AVAILABLE (Examples.geo_env true (Return new_database)) = true
       /\ nominatim (Examples.geo_env true (Return new_database))
            "Unknown City" = NoMatch)
  /\ (forall msg,
        (geocode (Examples.geo_env true (Return new_database))
           "Unknown City" Examples.fresh_globals).1
        = Raise (ValueError msg) ->
        msg = "Could not geocode: " +:+ "Unknown City")
  /\ ((exists msg,
          (geocode (Examples.geo_env true (Return new_database))
             "Unknown City" Examples.fresh_globals).1
          = Raise (ImportError msg))
      <-> _GEOPY_AVAILABLE (Examples.geo_env true (Return new_database))
          = false)
  /\ (forall msg msg', ImportError msg <> ValueError msg').
Proof.
  apply (geocode_miss_errors (Examples.geo_env true (Return new_database))
           Examples.fresh_globals "Unknown City").
  intros v. vm_compute. discriminate.
Defined.

(** C5. Whenever geopy is available and the run obtains coordinates,
    from the cache or from the provider, [geocode] returns exactly
    them, whatever the store does.  When opening or reading the cache
    fails, the provider is asked as on a miss and no write is attempted
    afterwards; when the write after a genuine miss fails, the exception
    is swallowed and the cache stays as it was. *)
Theorem geocode_cache_failure_harmless
    (env : environment) (g : globals) (a : string) (v : Q * Q) :
  _GEOPY_AVAILABLE env = true ->
  obtained env g a = Some v ->
  (geocode env a g).1 = Return v
  /\ (forall e,
        cache_lookup env g a = Raise e ->
        nominatim env a = Location v.1 v.2
        /\ (geocode env a g).2
           = log (CallProvider a) (set_geolocator (try_cache env a g).2))
  /\ (forall c e,
        (geopy_cache env g).1 = Return c ->
        cached_address c a = Return None ->
        cache_address c a v.1 v.2 = Raise e ->
        nominatim env a = Location v.1 v.2
        /\ (geocode env a g).2
           = log (WriteCache a)
               (log (CallProvider a) (set_geolocator (try_cache env a g).2))).
Proof.
  intros Hav. unfold obtained, cache_lookup, geocode, geopy_geolocator,
    try_cache.
  rewrite Hav. simpl.
  destruct (geopy_cache env g) as [[c|e] g']; simpl.
  - destruct (cached_address c a) as [[v'|]|e] eqn:Hread; simpl.
    + intros [= ->]. split_and!; [done|done|].
      intros c0 e [= <-] Hnone. congruence.
    + destruct (nominatim env a) as [lat lon| |]; [|done..].
      intros [= <-]. simpl. split_and!; [done|done|].
      intros c' e [= <-] _ Hwrite. by rewrite Hwrite.
    + destruct (nominatim env a) as [lat lon| |]; [|done..].
      intros [= <-]. simpl. split_and!; [done| |].
      * by intros e' _.
      * intros c' e' [= <-]. congruence.
  - destruct (nominatim env a) as [lat lon| |]; [|done..].
    intros [= <-]. simpl. split_and!; [done| |done].
    by intros e' _.
Qed.

(** The store of the cache cannot be read: Houston is answered by the
    provider, and nothing is written. *)
Lemma geocode_cache_failure_harmless_witness :
  (geocode
     (Examples.geo_env true (Return (Examples.fredericton_store false true)))
     "Houston, TX" Examples.fresh_globals).1
  = Return Examples.houston
  /\ (forall e,
        cache_lookup
          (Examples.geo_env true
             (Return (Examples.fredericton_store false true)))
          Examples.fresh_globals "Houston, TX" = Raise e ->
        nominatim
          (Examples.geo_env true
             (Return (Examples.fredericton_store false true)))
          "Houston, TX"
        = Location Examples.houston.1 Examples.houston.2
        /\ (geocode
              (Examples.geo_env true
                 (Return (Examples.fredericton_store false true)))
              "Houston, TX" Examples.fresh_globals).2
           = log (CallProvider "Houston, TX")
               (set_geolocator
                  (try_cache
                     (Examples.geo_env true
                        (Return (Examples.fredericton_store false true)))
                     "Houston, TX" Examples.fresh_globals).2))
  /\ (forall c e,
        (geopy_cache
           (Examples.geo_env true
              (Return (Examples.fredericton_store false true)))
           Examples.fresh_globals).1 = Return c ->
        cached_address c "Houston, TX" = Return None ->
        cache_address c "Houston, TX"
          Examples.houston.1 Examples.houston.2 = Raise e ->
        nominatim
          (Examples.geo_env true
             (Return (Examples.fredericton_store false true)))
          "Houston, TX"
        = Location Examples.houston.1 Examples.houston.2
        /\ (geocode
              (Examples.geo_env true
                 (Return (Examples.fredericton_store false true)))
              "Houston, TX" Examples.fresh_globals).2
           = log (WriteCache "Houston, TX")
               (log (CallProvider "Houston, TX")
                  (set_geolocator
                     (try_cache
                        (Examples.geo_env true
                           (Return (Examples.fredericton_store false true)))
                        "Houston, TX" Examples.fresh_globals).2))).
Proof.
  apply (geocode_cache_failure_harmless
           (Examples.geo_env true
              (Return (Examples.fredericton_store false true)))
           Examples.fresh_globals "Houston, TX" Examples.houston).
  - reflexivity.
  - vm_compute. reflexivity.
Defined.

(** The traces of three runs: a hit, a miss that is cached, and a miss
    on a store that cannot be read. *)
Example geocode_traces :
  trace (geocode
           (Examples.geo_env true
              (Return (Examples.fredericton_store true true)))
           "Fredericton, NB" Examples.fresh_globals).2
  = [ReadCache "Fredericton, NB"; OpenCache]
  /\ trace (geocode
              (Examples.geo_env true
                 (Return (Examples.fredericton_store true true)))
              "Houston, TX" Examples.fresh_globals).2
     = [WriteCache "Houston, TX"; CallProvider "Houston, TX";
        ReadCache "Houston, TX"; OpenCache]
  /\ trace (geocode
              (Examples.geo_env true
                 (Return (Examples.fredericton_store false true)))
              "Houston, TX" Examples.fresh_globals).2
     = [CallProvider "Houston, TX"; ReadCache "Houston, TX"; OpenCache].
Proof. split_and!; by vm_compute. Qed.

End geocoding_claims.

(** ** Claims on the extreme months *)

Section extreme_months.
Import Py WeatherData MonthlyAggregatorSpec.
Local Open Scope nat_scope.

Lemma elem_of_valid_entries temps i t :
  (i, t) ∈ valid_entries temps <-> temps !! i = Some (Some t).
Proof.
  unfold valid_entries. rewrite list_elem_of_omap. split.
  - intros ([j e] & Hin & Heq).
    apply list_elem_of_lookup in Hin as [k Hk].
    rewrite list_lookup_imap in Hk.
    destruct (temps !! k) as [e'|] eqn:Hl; [|done].
    injection Hk as <- <-. destruct e' as [t'|]; [|done].
    by injection Heq as <- <-.
  - intros Hl. exists (i, Some t). split; [|done].
    apply list_elem_of_lookup. exists i.
    by rewrite list_lookup_imap, Hl.
Qed.


Lemma valid_entries_from_sorted (k : nat) (temps : list (option float64)) :
  let l := omap (fun it : nat * option float64 => pair it.1 <$> it.2)
             (imap (fun i e => (k + i, e)) temps) in
  StronglySorted (fun a b : nat * float64 => a.1 < b.1) l
  /\ Forall (fun a : nat * float64 => k <= a.1) l.
Proof.
  revert k. induction temps as [|e temps IH]; intros k; simpl.
  { split; constructor. }
  rewrite (imap_ext _ (fun i e => (S k + i, e)))
    by (intros; simpl; f_equal; lia).
  destruct (IH (S k)) as [Hs Hf].
  assert (Forall (fun a : nat * float64 => k < a.1)
            (omap (fun it : nat * option float64 => pair it.1 <$> it.2)
               (imap (fun i e => (S k + i, e)) temps))) as Hlt
    by (eapply Forall_impl; [exact Hf|]; simpl; intros; lia).
  destruct e as [t|]; simpl.
  - replace (k + 0) with k by lia. split.
    + by constructor.
    + constructor; [simpl; lia|].
      eapply Forall_impl; [exact Hlt|]. simpl. intros. lia.
  - split; [done|]. eapply Forall_impl; [exact Hlt|]. simpl. intros. lia.
Qed.

Lemma valid_entries_sorted temps :
  StronglySorted (fun a b : nat * float64 => a.1 < b.1)
    (valid_entries temps).
Proof. apply (valid_entries_from_sorted 0 temps). Qed.

(** The scan of [min] and [max]: the result splits the sequence into
    the elements before it, over each of which it is strictly better,
    and the elements after it, none of which is strictly better. *)
Lemma py_best_by_split {A} (better : float64 -> float64 -> bool)
    (key : A -> float64) (P : A -> Prop) (x : A) (xs : list A) :
  (forall a b c, P a -> P b -> P c ->
                 better (key a) (key b) = true ->
                 better (key b) (key c) = true ->
                 better (key a) (key c) = true) ->
  (forall a b c, P a -> P b -> P c ->
                 better (key a) (key b) = true ->
                 better (key c) (key b) = false ->
                 better (key a) (key c) = true) ->
  Forall P (x :: xs) ->
  exists pre post,
    x :: xs = pre ++ py_best_by better key x xs :: post
    /\ Forall (fun y => better (key (py_best_by better key x xs)) (key y)
                        = true) pre
    /\ Forall (fun y => better (key y) (key (py_best_by better key x xs))
                        = false) post.
Proof.
  intros Htrans Hneg. induction xs as [|z xs IH] using rev_ind; intros HP.
  { exists [], []. by split_and!. }
  rewrite app_comm_cons in HP. apply Forall_app in HP as [HP Hz].
  rewrite Forall_singleton in Hz.
  destruct (IH HP) as (pre & post & Heq & Hpre & Hpost).
  unfold py_best_by in *. rewrite fold_left_app. simpl.
  set (b := fold_left _ xs x) in *.
  assert (P b) as Hb.
  { rewrite Heq in HP. apply Forall_app in HP as [_ HP]. by inv HP. }
  assert (Forall P pre /\ Forall P post) as [HPpre HPpost].
  { rewrite Heq in HP. apply Forall_app in HP as [? HP]. by inv HP. }
  destruct (better (key z) (key b)) eqn:Hzb.
  - exists (pre ++ b :: post), []. split_and!.
    + by rewrite app_comm_cons, Heq.
    + apply Forall_app. split; [|constructor; [done|]].
      * rewrite Forall_forall in Hpre, HPpre |- *. intros y Hy.
        apply (Htrans z b y); [done|done|by apply HPpre|done|by apply Hpre].
      * rewrite Forall_forall in Hpost, HPpost |- *. intros y Hy.
        apply (Hneg z b y); [done|done|by apply HPpost|done|by apply Hpost].
    + constructor.
  - exists pre, (post ++ [z]). split_and!.
    + by rewrite app_comm_cons, Heq, <- app_assoc.
    + done.
    + apply Forall_app. split; [done|]. by constructor.
Qed.

Lemma float_ltb_Num a b :
  float_ltb (Num a) (Num b) = true <-> (a < b)%Q.
Proof.
  simpl. destruct (Qlt_le_dec a b) as [Hlt|Hle]; split; try done.
  intros Hlt. by apply Qle_not_lt in Hle.
Qed.

(** On a profile without NaN the scan returns the first entry that no
    other entry beats. *)
Lemma best_of_first (better : float64 -> float64 -> bool)
    (strict : Q -> Q -> Prop) temps x xs :
  (forall a b, better (Num a) (Num b) = true <-> strict a b) ->
  (forall a, ~ strict a a) ->
  (forall a b c, strict a b -> strict b c -> strict a c) ->
  (forall a b c, strict a b -> ~ strict c b -> strict a c) ->
  (forall i, temps !! i <> Some (Some NaN)) ->
  valid_entries temps = x :: xs ->
  exists i q,
    py_best_by better snd x xs = (i, Num q)
    /\ temps !! i = Some (Some (Num q))
    /\ forall j q', temps !! j = Some (Some (Num q')) ->
                    ~ strict q' q /\ (j < i -> strict q q').
Proof.
  intros Hb Hirr Htrans Hneg Hnan Hv.
  set (P := fun a : nat * float64 => exists q, a.2 = Num q).
  assert (Forall P (x :: xs)) as HP.
  { rewrite <- Hv. apply Forall_forall. intros [i [|q]] Hin.
    - apply elem_of_valid_entries in Hin. by destruct (Hnan i).
    - by exists q. }
  destruct (py_best_by_split better snd P x xs)
    as (pre & post & Heq & Hpre & Hpost); [| |done|].
  { intros [? ?] [? ?] [? ?] [a ->] [b ->] [c ->]; simpl.
    rewrite !Hb. apply Htrans. }
  { intros [? ?] [? ?] [? ?] [a ->] [b ->] [c ->]; simpl.
    rewrite !Hb. intros Hab Hcb. apply (Hneg a b c); [done|].
    intros Hs. apply Hb in Hs. congruence. }
  set (r := py_best_by better snd x xs) in *.
  assert (r ∈ valid_entries temps) as Hr
    by (rewrite Hv, Heq; apply elem_of_app; right; by left).
  assert (P r) as [q Hq] by (rewrite Hv in Hr; by eapply Forall_forall in HP).
  destruct r as [i t] eqn:Er. simpl in Hq. subst t.
  exists i, q. split; [done|].
  split; [by apply elem_of_valid_entries|].
  intros j q' Hj. apply elem_of_valid_entries in Hj.
  pose proof (valid_entries_sorted temps) as Hs.
  rewrite Hv, Heq in Hj, Hs.
  apply elem_of_app in Hj as [Hj|Hj].
  - eapply Forall_forall in Hpre; [|exact Hj]. simpl in Hpre.
    apply Hb in Hpre. split; [|done].
    intros Hq'. apply (Hirr q). by apply (Htrans q q' q).
  - apply StronglySorted_app_1_r in Hs. inv Hs.
    apply elem_of_cons in Hj as [[= -> ->]|Hj].
    + split; [apply Hirr|lia].
    + split.
      * eapply Forall_forall in Hpost; [|exact Hj]. simpl in Hpost.
        intros Hq'. apply Hb in Hq'. congruence.
      * match goal with H : Forall _ post |- _ =>
          eapply Forall_forall in H; [|exact Hj]; simpl in H; lia end.
Qed.

(** The tie-break on a profile that holds no NaN: [coldest_of] gives
    the first minimal entry and [warmest_of] the first maximal one. *)
Lemma extreme_first_occurrence temps :
  (forall i, temps !! i <> Some (Some NaN)) ->
  (exists i q, temps !! i = Some (Some (Num q))) ->
  (exists i q,
      coldest_of temps = Return (i, Num q)
      /\ temps !! i = Some (Some (Num q))
      /\ forall j q', temps !! j = Some (Some (Num q')) ->
                      (q <= q')%Q /\ (j < i -> (q < q')%Q))
  /\ (exists i q,
        warmest_of temps = Return (i, Num q)
        /\ temps !! i = Some (Some (Num q))
        /\ forall j q', temps !! j = Some (Some (Num q')) ->
                        (q' <= q)%Q /\ (j < i -> (q' < q)%Q)).
Proof.
  intros Hnan (i0 & q0 & H0).
  destruct (valid_entries temps) as [|x xs] eqn:Hv.
  { apply elem_of_valid_entries in H0. rewrite Hv in H0.
    by apply elem_of_nil in H0. }
  unfold coldest_of, warmest_of. rewrite Hv. split.
  - destruct (best_of_first float_ltb Qlt temps x xs)
      as (i & q & Hbest & Hi & Hall); try done.
    + apply float_ltb_Num.
    + apply Qlt_irrefl.
    + intros a b c. apply Qlt_trans.
    + intros a b c Hab Hcb. apply Qnot_lt_le in Hcb.
      by eapply Qlt_le_trans.
    + exists i, q. split; [by f_equal|]. split; [done|].
      intros j q' Hj. destruct (Hall j q' Hj) as [Hnlt Hlt].
      split; [by apply Qnot_lt_le|done].
  - destruct (best_of_first float_gtb (fun a b => (b < a)%Q) temps x xs)
      as (i & q & Hbest & Hi & Hall); try done.
    + intros a b. apply float_ltb_Num.
    + intros a. apply Qlt_irrefl.
    + intros a b c Hab Hbc. by eapply Qlt_trans.
    + intros a b c Hab Hcb. apply Qnot_lt_le in Hcb.
      by eapply Qle_lt_trans.
    + exists i, q. split; [by f_equal|]. split; [done|].
      intros j q' Hj. destruct (Hall j q' Hj) as [Hnlt Hlt].
      split; [by apply Qnot_lt_le|done].
Qed.

(** C4, at a window with five January days and the default threshold
    of 23 days: every entry of the profile is unset (NaN for January,
    [None] for the other months), and yet neither function raises:
    both return the pair of index 0 and NaN. *)
Theorem extreme_month_of_unset_profile :
  month_average_temperature (Examples.station Examples.sparse_january)
    "72243" 2023 2023 23 true
  = Return (Some NaN :: replicate 11 None)
  /\ Forall unset (Some NaN :: replicate 11 None)
  /\ coldest_month (Examples.station Examples.sparse_january)
       "72243" 2023 None 23 true = Return (0, NaN)
  /\ warmest_month (Examples.station Examples.sparse_january)
       "72243" 2023 None 23 true = Return (0, NaN).
Proof.
  split_and!; try by vm_compute.
  apply Forall_forall. intros e He. unfold unset.
  apply elem_of_cons in He as [->|He]; [by right|].
  apply elem_of_replicate in He as [-> _]. by left.
Qed.

(** C8, at a window whose January is incomplete while February and
    March are complete and tie at 270: the set entries are those of
    index 1 and 2, and both functions return index 0 with NaN instead
    of the entry of index 1. *)
Theorem extreme_month_tie_after_unset_month :
  (exists q1 q2,
      month_average_temperature (Examples.station Examples.tied_months)
        "72243" 2023 2023 23 true
      = Return (Some NaN :: Some (Num q1) :: Some (Num q2)
                  :: replicate 9 None)
      /\ (q1 == 270)%Q /\ (q2 == 270)%Q)
  /\ coldest_month (Examples.station Examples.tied_months)
       "72243" 2023 None 23 true = Return (0, NaN)
  /\ warmest_month (Examples.station Examples.tied_months)
       "72243" 2023 None 23 true = Return (0, NaN).
Proof.
  split_and!; try by vm_compute.
  eexists _, _. split; [by vm_compute|]. by vm_compute.
Qed.

(** The scan on profiles that hold [None] and numbers only: the
    minimum at index 3, the maximum at index 7, the first of two equal
    minima, and the error on a profile of twelve [None]. *)
Example extreme_scan_examples :
  coldest_of (replicate 3 None ++ [Some (Num 291)] ++ replicate 3 None
              ++ [Some (Num 295)] ++ replicate 4 None)
  = Return (3, Num 291)
  /\ warmest_of (replicate 3 None ++ [Some (Num 291)] ++ replicate 3 None
                 ++ [Some (Num 295)] ++ replicate 4 None)
     = Return (7, Num 295)
  /\ coldest_of (None :: Some (Num 270) :: Some (Num 270)
                   :: replicate 9 None)
     = Return (1, Num 270)
  /\ coldest_of (replicate 12 None)
     = Raise (ValueError "No valid temperature data").
Proof. split_and!; by vm_compute. Qed.

End extreme_months.

(** * Further properties of the code *)

(** ** Degree days *)

Section degree_days_more.
Import Calculations.
Local Open Scope Q_scope.

Ltac degree_days_cases :=
  unfold heating_degree_days, cooling_degree_days, py_max;
  repeat match goal with
         | |- context [Qlt_le_dec ?a ?b] => destruct (Qlt_le_dec a b)
         end.

(** X1. With truncation, heating and cooling degree days are never both
    positive, and their difference is the signed difference
    [T_base - T] that the untruncated functions return. *)
Theorem degree_days_complementary (T T_base : Q) :
  heating_degree_days T T_base true * cooling_degree_days T T_base true == 0
  /\ heating_degree_days T T_base true - cooling_degree_days T T_base true
     == heating_degree_days T T_base false
  /\ heating_degree_days T T_base false == T_base - T.
Proof.
  split_and!; degree_days_cases; try lra; nra.
Qed.

(** X2. Truncated heating degree days are zero exactly from the base
    temperature upwards (cooling: downwards); on the other side the
    truncation changes nothing. *)
Theorem degree_days_truncation (T T_base : Q) :
  (heating_degree_days T T_base true == 0 <-> T_base <= T)
  /\ (cooling_degree_days T T_base true == 0 <-> T <= T_base)
  /\ (T <= T_base ->
      heating_degree_days T T_base true == heating_degree_days T T_base false)
  /\ (T_base <= T ->
      cooling_degree_days T T_base true == cooling_degree_days T T_base false).
Proof.
  split_and!; [split| split| |]; degree_days_cases; intros; lra.
Qed.

Lemma degree_days_truncation_witness :
  (heating_degree_days 280 default_T_base true == 0
   <-> default_T_base <= 280)
  /\ (cooling_degree_days 280 default_T_base true == 0
      <-> 280 <= default_T_base)
  /\ (280 <= default_T_base ->
      heating_degree_days 280 default_T_base true
      == heating_degree_days 280 default_T_base false)
  /\ (default_T_base <= 280 ->
      cooling_degree_days 280 default_T_base true
      == cooling_degree_days 280 default_T_base false).
Proof. apply (degree_days_truncation 280 default_T_base). Defined.

(** X3. A warmer day never needs more heating and never less cooling, with
    or without truncation. *)
Theorem degree_days_monotone (T1 T2 T_base : Q) (truncate : bool) :
  T1 <= T2 ->
  heating_degree_days T2 T_base truncate
  <= heating_degree_days T1 T_base truncate
  /\ cooling_degree_days T1 T_base truncate
     <= cooling_degree_days T2 T_base truncate.
Proof.
  intros H. destruct truncate; split; degree_days_cases; lra.
Qed.

Lemma degree_days_monotone_witness :
  heating_degree_days 300 default_T_base true
  <= heating_degree_days 280 default_T_base true
  /\ cooling_degree_days 280 default_T_base true
     <= cooling_degree_days 300 default_T_base true.
Proof.
  apply (degree_days_monotone 280 300 default_T_base true).
  vm_compute. discriminate.
Defined.


End degree_days_more.

(** ** Monthly profiles *)

Section monthly_profile_more.
Import Py WeatherData MonthlyAggregatorSpec.

(** X5. How an unset entry is written: [None] exactly when the window has
    no record of the month, NaN exactly when it has records of the month
    but no year qualifies. *)
Theorem month_average_unset_representation
    (fld : field) (ms : meteostat) (station : string)
    (sy ey md : Z) (si : bool) (m : Z) :
  _METEOSTAT_AVAILABLE ms = true ->
  1 <= m <= 12 ->
  exists profile e,
    month_average_of fld ms station sy ey md si = Return profile
    /\ profile !! Z.to_nat (m - 1) = Some e
    /\ (e = None
        <-> forall r, r ∈ default [] (window ms station sy ey si) ->
                      month (time r) <> m)
    /\ (e = Some NaN
        <-> (exists r, r ∈ default [] (window ms station sy ey si)
                       /\ month (time r) = m)
            /\ qualifying_years (column fld)
                 (default [] (window ms station sy ey si))
                 (Z.max 1 md) m = []).
Proof.
  intros Hav Hm. rewrite month_average_of_eq by done.
  rewrite monthly_profile_default.
  set (rows := default [] (window ms station sy ey si)).
  pose proof (monthly_profile_entry (column fld) md rows m Hm) as He.
  assert (m ∈ (fun r => month (time r)) <$> rows
          <-> exists r, r ∈ rows /\ month (time r) = m) as Hin.
  { rewrite list_elem_of_fmap. naive_solver. }
  eexists _, _. split; [done|]. split; [exact He|].
  destruct (qualifying_means (column fld) md rows m) as [|q qs] eqn:Hq.
  - apply qualifying_means_nil in Hq.
    destruct (decide _) as [Hd|Hd]; rewrite Hin in Hd.
    + split; [|naive_solver]. split; [done|].
      intros Hno. destruct Hd as (r & Hr & Hrm). by destruct (Hno r Hr).
    + split; [|split; [done|]; intros [? _]; naive_solver].
      split; [|done]. intros _ r Hr Hrm. apply Hd. eauto.
  - assert (qualifying_years (column fld) rows (Z.max 1 md) m <> []) as Hne.
    { intros Hnil. apply qualifying_means_nil in Hnil. congruence. }
    split; split; try done.
    + intros Hno.
      destruct (qualifying_years (column fld) rows (Z.max 1 md) m)
        as [|y ys] eqn:Hy; [done|].
      assert (m ∈ (fun r => month (time r)) <$> rows) as Hmem.
      { apply (qualifying_year_month (column fld) md rows m y).
        rewrite Hy. by left. }
      apply Hin in Hmem as (r & Hr & Hrm). by destruct (Hno r Hr).
    + by intros [_ ?].
Qed.

Lemma month_average_unset_representation_witness :
  exists profile e,
    month_average_of Temperature (Examples.station Examples.sparse_january)
      "72243" 2023 2023 23 true = Return profile
    /\ profile !! Z.to_nat (1 - 1) = Some e
    /\ (e = None
        <-> forall r,
              r ∈ default []
                    (window (Examples.station Examples.sparse_january)
                       "72243" 2023 2023 true) ->
              month (time r) <> 1)
    /\ (e = Some NaN
        <-> (exists r,
                r ∈ default []
                      (window (Examples.station Examples.sparse_january)
                         "72243" 2023 2023 true)
                /\ month (time r) = 1)
            /\ qualifying_years (column Temperature)
                 (default []
                    (window (Examples.station Examples.sparse_january)
                       "72243" 2023 2023 true))
                 (Z.max 1 23) 1 = []).
Proof.
  apply (month_average_unset_representation Temperature
           (Examples.station Examples.sparse_january) "72243" 2023 2023 23
           true 1).
  - reflexivity.
  - lia.
Defined.

Lemma qualifying_years_antitone col rows (t t' m : Z) :
  t <= t' ->
  qualifying_years col rows t m = [] -> qualifying_years col rows t' m = [].
Proof.
  intros Ht Hnil. unfold qualifying_years in *.
  destruct (filter (fun y => t' <= _) (years rows)) as [|y ys] eqn:Hf; [done|].
  assert (y ∈ filter (fun y => t <= valid_count col rows y m) (years rows))
    as Hy.
  { assert (y ∈ filter (fun y => t' <= valid_count col rows y m) (years rows))
      as [? ?]%list_elem_of_filter by (rewrite Hf; by left).
    apply list_elem_of_filter. split; [lia|done]. }
  rewrite Hnil in Hy. by apply elem_of_nil in Hy.
Qed.

Lemma monthly_profile_unset col md rows m e :
  1 <= m <= 12 ->
  monthly_profile col md (Some rows) !! Z.to_nat (m - 1) = Some e ->
  (unset e <-> qualifying_years col rows (Z.max 1 md) m = []).
Proof.
  intros Hm. rewrite monthly_profile_entry by done.
  intros [= <-]. rewrite <- qualifying_means_nil.
  destruct (qualifying_means col md rows m) as [|q qs].
  - split; [done|]. intros _. unfold unset. destruct (decide _); auto.
  - split; [|done]. intros [?|?]; discriminate.
Qed.

(** X6. A stricter completeness threshold never sets an entry that a weaker
    one leaves unset: over the same window, the months that are unset
    with [min_days] stay unset with every larger threshold. *)
Theorem month_average_threshold_monotone
    (fld : field) (ms : meteostat) (station : string)
    (sy ey md md' : Z) (si : bool) :
  _METEOSTAT_AVAILABLE ms = true ->
  md <= md' ->
  exists profile profile',
    month_average_of fld ms station sy ey md si = Return profile
    /\ month_average_of fld ms station sy ey md' si = Return profile'
    /\ forall i e e',
         profile !! i = Some e -> profile' !! i = Some e' ->
         unset e -> unset e'.
Proof.
  intros Hav Hmd. rewrite !month_average_of_eq by done.
  rewrite (monthly_profile_default _ md), (monthly_profile_default _ md').
  set (rows := default [] (window ms station sy ey si)).
  eexists _, _. split; [done|]. split; [done|].
  intros i e e' He He' Hu.
  assert (i < 12)%nat as Hi.
  { rewrite <- (length_monthly_profile (column fld) md (Some rows)).
    by eapply lookup_lt_Some. }
  assert (i = Z.to_nat ((Z.of_nat i + 1) - 1)) as Hidx by lia.
  rewrite Hidx in He, He'.
  apply monthly_profile_unset in He; [|lia].
  apply monthly_profile_unset in He'; [|lia].
  apply He'. eapply (qualifying_years_antitone _ _ (Z.max 1 md)); [lia|].
  by apply He.
Qed.

Lemma month_average_threshold_monotone_witness :
  exists profile profile',
    month_average_of Temperature (Examples.station Examples.two_januaries)
      "72243" 2020 2021 5 true = Return profile
    /\ month_average_of Temperature (Examples.station Examples.two_januaries)
         "72243" 2020 2021 23 true = Return profile'
    /\ forall i e e',
         profile !! i = Some e -> profile' !! i = Some e' ->
         unset e -> unset e'.
Proof.
  apply (month_average_threshold_monotone Temperature
           (Examples.station Examples.two_januaries) "72243" 2020 2021 5 23
           true).
  - reflexivity.
  - lia.
Defined.





End monthly_profile_more.

(** ** Extreme months *)

Section extreme_months_more.
Import Py WeatherData MonthlyAggregatorSpec.

Lemma py_best_by_elem {A} better (key : A -> float64) x xs :
  py_best_by better key x xs ∈ x :: xs.
Proof.
  unfold py_best_by. revert x. induction xs as [|y xs IH]; intros x; simpl.
  - by left.
  - destruct (better (key y) (key x)).
    + right. apply IH.
    + specialize (IH x). apply elem_of_cons in IH as [->|IH].
      * by left.
      * right. by right.
Qed.

Lemma extreme_of_elem temps i t :
  coldest_of temps = Return (i, t) \/ warmest_of temps = Return (i, t) ->
  temps !! i = Some (Some t).
Proof.
  unfold coldest_of, warmest_of.
  destruct (valid_entries temps) as [|x xs] eqn:Hv; [by intros [?|?]|].
  intros H. apply elem_of_valid_entries. rewrite Hv.
  destruct H as [[= <-]|[= <-]]; apply py_best_by_elem.
Qed.

Lemma coldest_month_eq ms station sy ey md si :
  _METEOSTAT_AVAILABLE ms = true ->
  coldest_month ms station sy ey md si
  = coldest_of (monthly_profile temp md
                  (window ms station sy (default sy ey) si))
  /\ warmest_month ms station sy ey md si
     = warmest_of (monthly_profile temp md
                     (window ms station sy (default sy ey) si)).
Proof.
  intros Hav. unfold coldest_month, warmest_month.
  pose proof (month_average_of_eq Temperature ms station sy (default sy ey)
                md si Hav) as Heq.
  simpl in Heq. by rewrite Heq.
Qed.

(** X8. Whatever [coldest_month] or [warmest_month] returns is an entry of
    the profile of [month_average_temperature] for the same arguments,
    paired with its own index, and the index is below 12; a missing
    [end_year] means the single year [start_year]. *)
Theorem extreme_month_is_profile_entry
    (ms : meteostat) (station : string) (sy : Z) (ey : option Z) (md : Z)
    (si : bool) (i : nat) (t : float64) :
  coldest_month ms station sy ey md si = Return (i, t)
  \/ warmest_month ms station sy ey md si = Return (i, t) ->
  (i < 12)%nat
  /\ exists profile,
       month_average_temperature ms station sy (default sy ey) md si
       = Return profile
       /\ profile !! i = Some (Some t).
Proof.
  intros H.
  destruct (_METEOSTAT_AVAILABLE ms) eqn:Hav.
  2:{ unfold coldest_month, warmest_month, month_average_temperature,
        month_average, _check_meteostat in H. rewrite Hav in H.
      by destruct H. }
  destruct (coldest_month_eq ms station sy ey md si Hav) as [Hc Hw].
  rewrite Hc, Hw in H. apply extreme_of_elem in H.
  split.
  - rewrite <- (length_monthly_profile temp md
                  (window ms station sy (default sy ey) si)).
    by eapply lookup_lt_Some.
  - eexists. split; [|exact H].
    apply (month_average_of_eq Temperature ms station sy (default sy ey)
             md si Hav).
Qed.

Lemma extreme_month_is_profile_entry_witness :
  (0 < 12)%nat
  /\ exists profile,
       month_average_temperature (Examples.station Examples.two_januaries)
         "72243" 2020 (default 2020 (Some 2021)) 23 true
       = Return profile
       /\ profile !! 0%nat = Some (Some (Num (8556 # 31))).
Proof.
  apply (extreme_month_is_profile_entry
           (Examples.station Examples.two_januaries) "72243" 2020 (Some 2021)
           23 true 0%nat (Num (8556 # 31))).
  left. by vm_compute.
Defined.

Lemma valid_entries_head temps i0 t0 :
  (forall j, (j < i0)%nat -> temps !! j = Some None) ->
  temps !! i0 = Some (Some t0) ->
  exists xs, valid_entries temps = (i0, t0) :: xs.
Proof.
  intros Hbefore Hi0.
  pose proof (valid_entries_sorted temps) as Hs.
  apply elem_of_valid_entries in Hi0 as Hin.
  destruct (valid_entries temps) as [|[k t'] xs] eqn:Hv.
  { by apply elem_of_nil in Hin. }
  assert (temps !! k = Some (Some t')) as Hk
    by (apply elem_of_valid_entries; rewrite Hv; by left).
  inv Hs. apply elem_of_cons in Hin as [[= <- <-]|Hin]; [by eexists|].
  match goal with H : Forall _ xs |- _ =>
    eapply Forall_forall in H; [|exact Hin]; simpl in H end.
  rewrite Hbefore in Hk by done. discriminate.
Qed.

Lemma py_best_by_NaN_head {A} better (key : A -> float64) x xs :
  (forall a, better a NaN = false) ->
  key x = NaN -> py_best_by better key x xs = x.
Proof.
  intros Hb Hx. unfold py_best_by.
  induction xs as [|y xs IH]; simpl; [done|]. by rewrite Hx, Hb.
Qed.

Lemma py_best_by_Num_head {A} better (key : A -> float64) x xs :
  (forall a b, better a b = true -> a <> NaN) ->
  key x <> NaN -> key (py_best_by better key x xs) <> NaN.
Proof.
  intros Hb. unfold py_best_by. revert x.
  induction xs as [|y xs IH]; intros x Hx; simpl; [done|].
  destruct (better (key y) (key x)) eqn:Hyx; apply IH; [|done].
  by apply Hb in Hyx.
Qed.

(** X9. The scan and NaN: the result of [coldest_month] and [warmest_month]
    scans is NaN exactly when the first entry of the profile that is not
    [None] is NaN, and then it is that entry; a NaN further on is never
    returned. *)
Theorem extreme_of_nan_iff_first (temps : list (option float64))
    (i0 : nat) (t0 : float64) :
  (forall j, (j < i0)%nat -> temps !! j = Some None) ->
  temps !! i0 = Some (Some t0) ->
  exists i t j t',
    coldest_of temps = Return (i, t)
    /\ warmest_of temps = Return (j, t')
    /\ (t = NaN <-> t0 = NaN)
    /\ (t' = NaN <-> t0 = NaN)
    /\ (t0 = NaN -> i = i0 /\ j = i0).
Proof.
  intros Hbefore Hi0.
  destruct (valid_entries_head temps i0 t0 Hbefore Hi0) as [xs Hv].
  unfold coldest_of, warmest_of. rewrite Hv.
  assert (forall a, float_ltb a NaN = false) as Hl by (by intros [|?]).
  assert (forall a, float_gtb a NaN = false) as Hg by done.
  assert (forall a b, float_ltb a b = true -> a <> NaN) as Hl'
    by (by intros [|?] [|?]).
  assert (forall a b, float_gtb a b = true -> a <> NaN) as Hg'
    by (by intros [|?] [|?]).
  destruct t0 as [|q0] eqn:Ht0; [|assert (Num q0 <> NaN) as Hne by done].
  - exists i0, NaN, i0, NaN. unfold py_min_by, py_max_by.
    rewrite !py_best_by_NaN_head by done. by split_and!.
  - pose proof (py_best_by_Num_head float_ltb snd (i0, Num q0) xs Hl' Hne)
      as Hc.
    pose proof (py_best_by_Num_head float_gtb snd (i0, Num q0) xs Hg' Hne)
      as Hw.
    unfold py_min_by, py_max_by.
    destruct (py_best_by float_ltb snd (i0, Num q0) xs) as [i t].
    destruct (py_best_by float_gtb snd (i0, Num q0) xs) as [j t'].
    exists i, t, j, t'. simpl in Hc, Hw. by split_and!.
Qed.

Lemma extreme_of_nan_iff_first_witness :
  exists i t j t',
    coldest_of [None; Some NaN; Some (Num 270); None] = Return (i, t)
    /\ warmest_of [None; Some NaN; Some (Num 270); None] = Return (j, t')
    /\ (t = NaN <-> NaN = NaN)
    /\ (t' = NaN <-> NaN = NaN)
    /\ (NaN = NaN -> i = 1%nat /\ j = 1%nat).
Proof.
  apply (extreme_of_nan_iff_first [None; Some NaN; Some (Num 270); None]
           1%nat NaN).
  - intros [|j] Hj; [reflexivity|lia].
  - reflexivity.
Defined.




(** X11. On a profile without NaN that holds a number, the value of the
    coldest month is at most the value of the warmest month, and every
    number of the profile lies between the two. *)
Theorem coldest_le_warmest (temps : list (option float64)) :
  (forall i, temps !! i <> Some (Some NaN)) ->
  (exists i q, temps !! i = Some (Some (Num q))) ->
  exists i q j q',
    coldest_of temps = Return (i, Num q)
    /\ warmest_of temps = Return (j, Num q')
    /\ (q <= q')%Q
    /\ forall k v, temps !! k = Some (Some (Num v)) -> (q <= v <= q')%Q.
Proof.
  intros Hnan Hex.
  destruct (extreme_first_occurrence temps Hnan Hex)
    as [(i & q & Hc & Hi & Hmin) (j & q' & Hw & Hj & Hmax)].
  exists i, q, j, q'. split_and!; [done|done| |].
  - by apply (Hmin j q').
  - intros k v Hk. split; [by apply (Hmin k v)|by apply (Hmax k v)].
Qed.

Lemma coldest_le_warmest_witness :
  exists i q j q',
    coldest_of [None; Some (Num 280); Some (Num 270)] = Return (i, Num q)
    /\ warmest_of [None; Some (Num 280); Some (Num 270)] = Return (j, Num q')
    /\ (q <= q')%Q
    /\ forall k v,
         [None; Some (Num 280); Some (Num 270)] !! k = Some (Some (Num v)) ->
         (q <= v <= q')%Q.
Proof.
  apply (coldest_le_warmest [None; Some (Num 280); Some (Num 270)]).
  - intros [|[|[|i]]]; discriminate.
  - exists 1%nat, 280%Q. reflexivity.
Defined.

End extreme_months_more.

(** ** The geocoding cache and [geocode] *)

Section geocoding_more.
Import Py Geocoding.

Lemma geopy_cache_some env g c :
  _geopy_cache g = Some c -> geopy_cache env g = (Return c, g).
Proof. intros H. unfold geopy_cache. by rewrite H. Qed.

Lemma geopy_cache_singleton env g c g' :
  geopy_cache env g = (Return c, g') -> _geopy_cache g' = Some c.
Proof.
  unfold geopy_cache. destruct (_geopy_cache g) as [c0|] eqn:Hs.
  - by intros [= <- <-].
  - destruct (SimpleGeolocatorCache_init _ _); [|done]. by intros [= <- <-].
Qed.

(** The answers of the cache depend on the singleton only. *)
Lemma cache_lookup_singleton env g g' b :
  _geopy_cache g = _geopy_cache g' ->
  cache_lookup env g b = cache_lookup env g' b.
Proof.
  intros H. unfold cache_lookup, geopy_cache. rewrite <- H.
  destruct (_geopy_cache g); [done|].
  by destruct (SimpleGeolocatorCache_init _ _).
Qed.

Lemma cache_lookup_opened env g c g' b :
  geopy_cache env g = (Return c, g') ->
  cache_lookup env g b = cached_address c b.
Proof. intros H. unfold cache_lookup. by rewrite H. Qed.

(** X12. The singleton cache is opened at most once as long as opening
    succeeds: a second [geopy_cache()] returns the same object without
    touching the store.  A failed open leaves the singleton empty, and
    the next call tries again. *)
Theorem geopy_cache_opened_once (env : environment) (g : globals) :
  (forall c g1,
      geopy_cache env g = (Return c, g1) ->
      geopy_cache env g1 = (Return c, g1)
      /\ (trace g1 = trace g \/ trace g1 = OpenCache :: trace g))
  /\ (forall e g1,
        geopy_cache env g = (Raise e, g1) ->
        _geopy_cache g = None
        /\ g1 = log OpenCache g
        /\ trace (geopy_cache env g1).2 = OpenCache :: trace g1).
Proof.
  split.
  - intros c g1 H. split.
    + apply geopy_cache_some. by eapply geopy_cache_singleton.
    + unfold geopy_cache in H. destruct (_geopy_cache g).
      * injection H as <- <-. by left.
      * destruct (SimpleGeolocatorCache_init _ _); [|done].
        injection H as <- <-. by right.
  - intros e g1 H. unfold geopy_cache in *.
    destruct (_geopy_cache g) eqn:Hs; [done|].
    destruct (SimpleGeolocatorCache_init _ _) eqn:Hinit; [done|].
    injection H as <- <-. split_and!; [done..|].
    cbn [_geopy_cache log]. rewrite Hs.
    by destruct (SimpleGeolocatorCache_init _ _).
Qed.

(** X13. Storing one address leaves the pair of every other address as it
    was, and the size grows by one exactly when the address was not in
    the cache. *)
Theorem cache_address_frame
    (self : SimpleGeolocatorCache) (a b : string) (lat lon : Q) :
  usable self ->
  a <> b ->
  exists c1,
    cache_address self a lat lon = Return c1
    /\ usable c1
    /\ cached_address c1 b = cached_address self b
    /\ exists n n', __len__ self = Return n /\ __len__ c1 = Return n'
                    /\ n' = match geopy (conn self) !! a with
                            | Some _ => n
                            | None => S n
                            end.
Proof.
  intros Hu Hab. eexists. rewrite cache_address_usable by done.
  split; [done|]. split; [done|].
  rewrite !cached_address_usable by done. cbn [geopy conn with_rows].
  rewrite lookup_insert_ne by done. split; [done|].
  eexists _, _. rewrite !len_usable by done. split; [done|]. split; [done|].
  cbn [geopy conn with_rows]. rewrite map_size_insert.
  by destruct (geopy (conn self) !! a).
Qed.

Lemma cache_address_frame_witness :
  exists c1,
    cache_address Examples.houston_cache "Houston, TX" 1 2 = Return c1
    /\ usable c1
    /\ cached_address c1 "Unknown City"
       = cached_address Examples.houston_cache "Unknown City"
    /\ exists n n',
         __len__ Examples.houston_cache = Return n /\ __len__ c1 = Return n'
         /\ n' = match geopy (conn Examples.houston_cache) !! "Houston, TX"
                 with
                 | Some _ => n
                 | None => S n
                 end.
Proof.
  apply (cache_address_frame Examples.houston_cache
           "Houston, TX" "Unknown City" 1 2).
  - repeat split; reflexivity.
  - discriminate.
Defined.

Lemma geocode_miss_state env a g c g1 :
  _GEOPY_AVAILABLE env = true ->
  geopy_cache env g = (Return c, g1) ->
  usable c ->
  cached_address c a = Return None ->
  geocode env a g
  = match nominatim env a with
    | Location lat lon =>
        (Return (lat, lon),
         set_geopy_cache (with_rows c (<[a := (lat, lon)]> (geopy (conn c))))
           (log (WriteCache a)
              (log (CallProvider a) (set_geolocator (log (ReadCache a) g1)))))
    | NoMatch =>
        (Raise (ValueError ("Could not geocode: " +:+ a)),
         log (CallProvider a) (set_geolocator (log (ReadCache a) g1)))
    | ProviderRaises =>
        (Raise GeocoderError,
         log (CallProvider a) (set_geolocator (log (ReadCache a) g1)))
    end.
Proof.
  intros Hav Hopen Hu Hread.
  unfold geocode, try_cache, geopy_geolocator. rewrite Hav, Hopen. simpl.
  rewrite Hread. simpl.
  destruct (nominatim env a); [|done..].
  by rewrite cache_address_usable.
Qed.

(** X14. At most one provider call per address while the cache works: once
    [geocode] returned a pair, a second [geocode] of the same address
    returns the same pair from the cache and does not call the
    provider; the first call asked the provider at most once. *)
Theorem geocode_twice
    (env : environment) (g : globals) (a : string) (v : Q * Q)
    (c : SimpleGeolocatorCache) :
  _GEOPY_AVAILABLE env = true ->
  (geopy_cache env g).1 = Return c ->
  usable c ->
  (geocode env a g).1 = Return v ->
  cache_lookup env (geocode env a g).2 a = Return (Some v)
  /\ (geocode env a (geocode env a g).2).1 = Return v
  /\ provider_calls (geocode env a (geocode env a g).2).2
     = provider_calls (geocode env a g).2
  /\ (provider_calls (geocode env a g).2 = provider_calls g
      \/ provider_calls (geocode env a g).2 = a :: provider_calls g).
Proof.
  intros Hav Hopen Hu Hres.
  destruct (geopy_cache env g) as [r g1] eqn:Hg. simpl in Hopen. subst r.
  assert (provider_calls g1 = provider_calls g) as Hcalls.
  { unfold geopy_cache in Hg. destruct (_geopy_cache g).
    - by injection Hg as _ <-.
    - destruct (SimpleGeolocatorCache_init _ _); [|done].
      by injection Hg as _ <-. }
  assert (cache_lookup env (geocode env a g).2 a = Return (Some v)
          /\ (provider_calls (geocode env a g).2 = provider_calls g
              \/ provider_calls (geocode env a g).2 = a :: provider_calls g))
    as [Hlookup Hfirst].
  { destruct (cached_address c a) as [[v'|]|e] eqn:Hread.
    - assert (cache_lookup env g a = Return (Some v')) as Hhit
        by (by rewrite (cache_lookup_opened env g c g1)).
      rewrite (geocode_hit env a g v') in Hres |- * by done.
      injection Hres as ->. simpl. split.
      + unfold try_cache. rewrite Hg, Hread. simpl.
        apply geopy_cache_singleton in Hg as Hs.
        unfold cache_lookup.
        by rewrite (geopy_cache_some env (log (ReadCache a) g1) c Hs).
      + left. apply try_cache_provider_calls.
    - rewrite (geocode_miss_state env a g c g1) in Hres |- * by done.
      destruct (nominatim env a) as [lat lon| |]; [|done..].
      injection Hres as <-. simpl. split.
      + unfold cache_lookup, geopy_cache. cbn [_geopy_cache set_geopy_cache].
        simpl. rewrite cached_address_usable by done. simpl.
        by rewrite lookup_insert_eq.
      + right. unfold provider_calls. simpl. by f_equal.
    - destruct Hu as (Hc & Hr & _). unfold cached_address in Hread.
      by rewrite Hc, Hr in Hread. }
  split; [done|]. rewrite (geocode_hit env a _ v) by done.
  split; [done|]. split; [|done]. apply try_cache_provider_calls.
Qed.

Lemma geocode_twice_witness :
  cache_lookup
    (Examples.geo_env true (Return new_database))
    (geocode (Examples.geo_env true (Return new_database))
       "Houston, TX" Examples.fresh_globals).2 "Houston, TX"
  = Return (Some Examples.houston)
  /\ (geocode (Examples.geo_env true (Return new_database)) "Houston, TX"
        (geocode (Examples.geo_env true (Return new_database))
           "Houston, TX" Examples.fresh_globals).2).1
     = Return Examples.houston
  /\ provider_calls
       (geocode (Examples.geo_env true (Return new_database)) "Houston, TX"
          (geocode (Examples.geo_env true (Return new_database))
             "Houston, TX" Examples.fresh_globals).2).2
     = provider_calls
         (geocode (Examples.geo_env true (Return new_database))
            "Houston, TX" Examples.fresh_globals).2
  /\ (provider_calls
        (geocode (Examples.geo_env true (Return new_database))
           "Houston, TX" Examples.fresh_globals).2
      = provider_calls Examples.fresh_globals
      \/ provider_calls
           (geocode (Examples.geo_env true (Return new_database))
              "Houston, TX" Examples.fresh_globals).2
         = "Houston, TX" :: provider_calls Examples.fresh_globals).
Proof.
  apply (geocode_twice (Examples.geo_env true (Return new_database))
           Examples.fresh_globals "Houston, TX" Examples.houston
           {| file_path := "simple_geolocator_cache.sqlite3";
              conn := new_database |}).
  - reflexivity.
  - reflexivity.
  - repeat split; reflexivity.
  - vm_compute. reflexivity.
Defined.

(** X15. The provider is called exactly when geopy is available and the
    cache lookup is not a hit (a genuine miss or a failure of the cache),
    and then once, with the address as it was given; in every other
    run it is not called. *)
Theorem geocode_provider_calls (env : environment) (g : globals) (a : string) :
  (_GEOPY_AVAILABLE env = true
   /\ (forall v, cache_lookup env g a <> Return (Some v)) ->
   provider_calls (geocode env a g).2 = a :: provider_calls g)
  /\ (_GEOPY_AVAILABLE env = false
      \/ (exists v, cache_lookup env g a = Return (Some v)) ->
      provider_calls (geocode env a g).2 = provider_calls g).
Proof.
  split.
  - intros [Hav Hmiss].
    pose proof (try_cache_lookup env a g) as Ht.
    pose proof (try_cache_provider_calls env a g) as Hc.
    unfold geocode, geopy_geolocator. rewrite Hav. simpl.
    destruct (try_cache env a g) as [[cache result] g']. simpl in Ht, Hc.
    destruct result as [v|].
    { destruct (cache_lookup env g a) as [[v'|]|e]; try done.
      by destruct (Hmiss v'). }
    rewrite <- Hc. unfold provider_calls.
    destruct (nominatim env a); [|done..].
    destruct cache as [cache|]; [|done].
    by destruct (cache_address cache a latitude longitude).
  - intros [Hav|[v Hhit]].
    + by rewrite geocode_unavailable.
    + destruct (_GEOPY_AVAILABLE env) eqn:Hav.
      * rewrite (geocode_hit env a g v) by done.
        apply try_cache_provider_calls.
      * by rewrite geocode_unavailable.
Qed.

Lemma cache_lookup_of_singleton env g c b :
  _geopy_cache g = Some c -> cache_lookup env g b = cached_address c b.
Proof.
  intros H. unfold cache_lookup. by rewrite (geopy_cache_some env g c H).
Qed.

(** X16. [geocode] changes what the cache answers for no address but its
    own, and for its own only when it returns a pair: a run that raises
    (no match, a provider exception, geopy missing) caches nothing. *)
Theorem geocode_cache_frame
    (env : environment) (g : globals) (a b : string) :
  b <> a \/ (exists e, (geocode env a g).1 = Raise e) ->
  cache_lookup env (geocode env a g).2 b = cache_lookup env g b.
Proof.
  intros Hcase. destruct (_GEOPY_AVAILABLE env) eqn:Hav.
  2:{ by rewrite geocode_unavailable. }
  revert Hcase. unfold geocode, try_cache, geopy_geolocator.
  rewrite Hav. simpl.
  destruct (geopy_cache env g) as [[c|e] g1] eqn:Hg; simpl.
  - apply geopy_cache_singleton in Hg as Hs.
    rewrite (cache_lookup_opened env g c g1 b Hg).
    destruct (cached_address c a) as [[v|]|e] eqn:Hread; simpl.
    + intros _. by apply cache_lookup_of_singleton.
    + destruct (nominatim env a) as [lat lon| |]; simpl;
        try (intros _; by apply cache_lookup_of_singleton).
      unfold cache_address.
      destruct (closed (conn c) || write_fault (conn c)) eqn:Hw; simpl.
      * intros _. by apply cache_lookup_of_singleton.
      * intros [Hb|[e [=]]].
        unfold cache_lookup, geopy_cache. cbn [_geopy_cache set_geopy_cache].
        cbn [fst bind]. unfold cached_address.
        cbn [conn with_rows closed read_fault geopy].
        by rewrite lookup_insert_ne by (intros ->; by apply Hb).
    + destruct (nominatim env a); simpl; intros _;
        by apply cache_lookup_of_singleton.
  - assert (_geopy_cache g1 = _geopy_cache g) as Hs.
    { unfold geopy_cache in Hg. destruct (_geopy_cache g) eqn:Hn; [done|].
      destruct (SimpleGeolocatorCache_init _ _); [done|].
      injection Hg as _ <-. exact Hn. }
    destruct (nominatim env a); simpl; intros _;
      apply cache_lookup_singleton; exact Hs.
Qed.

Lemma geocode_cache_frame_witness :
  cache_lookup
    (Examples.geo_env true (Return (Examples.fredericton_store true true)))
    (geocode
       (Examples.geo_env true (Return (Examples.fredericton_store true true)))
       "Houston, TX" Examples.fresh_globals).2 "Fredericton, NB"
  = cache_lookup
      (Examples.geo_env true (Return (Examples.fredericton_store true true)))
      Examples.fresh_globals "Fredericton, NB".
Proof.
  apply (geocode_cache_frame
           (Examples.geo_env true
              (Return (Examples.fredericton_store true true)))
           Examples.fresh_globals "Houston, TX" "Fredericton, NB").
  left. discriminate.
Defined.

(** X17. Once the singleton cache has been closed it is never reopened: with
    geopy available every [geocode] reads in vain, asks the provider,
    returns what the provider gives and writes nothing, and the closed
    cache stays in place. *)
Theorem geocode_closed_cache
    (env : environment) (g : globals) (a : string)
    (c : SimpleGeolocatorCache) :
  _GEOPY_AVAILABLE env = true ->
  _geopy_cache g = Some c ->
  closed (conn c) = true ->
  (geocode env a g).1
  = match nominatim env a with
    | Location latitude longitude => Return (latitude, longitude)
    | NoMatch => Raise (ValueError ("Could not geocode: " +:+ a))
    | ProviderRaises => Raise GeocoderError
    end
  /\ _geopy_cache (geocode env a g).2 = Some c
  /\ trace (geocode env a g).2 = CallProvider a :: ReadCache a :: trace g.
Proof.
  intros Hav Hs Hclosed.
  unfold geocode, try_cache, geopy_geolocator, geopy_cache, cached_address.
  rewrite Hav, Hs, Hclosed. simpl.
  by destruct (nominatim env a).
Qed.

Lemma geocode_closed_cache_witness :
  (geocode (Examples.geo_env true (Return new_database)) "Houston, TX"
     (set_geopy_cache (close Examples.houston_cache) Examples.fresh_globals)).1
  = match nominatim (Examples.geo_env true (Return new_database))
            "Houston, TX" with
    | Location latitude longitude => Return (latitude, longitude)
    | NoMatch => Raise (ValueError ("Could not geocode: " +:+ "Houston, TX"))
    | ProviderRaises => Raise GeocoderError
    end
  /\ _geopy_cache
       (geocode (Examples.geo_env true (Return new_database)) "Houston, TX"
          (set_geopy_cache (close Examples.houston_cache)
             Examples.fresh_globals)).2
     = Some (close Examples.houston_cache)
  /\ trace
       (geocode (Examples.geo_env true (Return new_database)) "Houston, TX"
          (set_geopy_cache (close Examples.houston_cache)
             Examples.fresh_globals)).2
     = CallProvider "Houston, TX" :: ReadCache "Houston, TX"
         :: trace (set_geopy_cache (close Examples.houston_cache)
                     Examples.fresh_globals).
Proof.
  apply (geocode_closed_cache (Examples.geo_env true (Return new_database))
           (set_geopy_cache (close Examples.houston_cache)
              Examples.fresh_globals)
           "Houston, TX" (close Examples.houston_cache)).
  - reflexivity.
  - reflexivity.
  - reflexivity.
Defined.

End geocoding_more.

(** ** Station lookup *)

Section stations_facts.
Import Py Stations.

Lemma filter_unique_key {A K : Type} `{EqDecision K} (f : A -> K)
    (l : list A) (x : A) :
  NoDup (f <$> l) -> x ∈ l -> filter (fun y => f y = f x) l = [x].
Proof.
  induction l as [|y l IH]; intros Hnd Hx; [by apply elem_of_nil in Hx|].
  rewrite fmap_cons in Hnd. apply NoDup_cons in Hnd as [Hy Hnd].
  rewrite filter_cons. apply elem_of_cons in Hx as [->|Hx].
  - rewrite decide_True by done. f_equal.
    destruct (filter (fun y0 => f y0 = f y) l) as [|z zs] eqn:Hf; [done|].
    assert (z ∈ filter (fun y0 => f y0 = f y) l) as [Hz Hzl]%list_elem_of_filter
      by (rewrite Hf; by left).
    destruct Hy. rewrite <- Hz. by apply list_elem_of_fmap_2.
  - destruct (decide (f y = f x)) as [Heq|Hne]; [|by apply IH].
    destruct Hy. rewrite Heq. by apply list_elem_of_fmap_2.
Qed.

(** X18. [get_stations_nearby] returns, in the order of the provider, exactly
    the nearby stations whose distance is known and at most
    [max_distance_km] kilometres (all of them without a maximum); the
    [limit] argument changes nothing. *)
Theorem get_stations_nearby_within
    (ms : meteostat) (lat lon : Q) (limit : Z) (max_km : option Q) :
  _METEOSTAT_AVAILABLE ms = true ->
  exists df,
    get_stations_nearby ms lat lon limit max_km = Return df
    /\ sublist df (stations_nearby ms lat lon None)
    /\ (forall s,
          s ∈ df
          <-> s ∈ stations_nearby ms lat lon None
              /\ forall km, max_km = Some km ->
                            exists d, distance s = WeatherData.Num d
                                      /\ (d <= km * 1000)%Q)
    /\ (forall limit',
          get_stations_nearby ms lat lon limit' max_km = Return df).
Proof.
  intros Hav. unfold get_stations_nearby, _check_meteostat. rewrite Hav.
  simpl. eexists. split; [done|]. destruct max_km as [km|].
  - split; [apply sublist_filter|]. split; [|done].
    intros s. rewrite list_elem_of_filter. split.
    + intros [Hd Hs]. split; [done|]. intros km' [= <-].
      destruct (distance s) as [|d]; [done|]. by exists d.
    + intros [Hs Hd]. split; [|done].
      destruct (Hd km eq_refl) as (d & -> & Hle). done.
  - split; [done|]. split; [|done]. intros s. split; [|by intros [? _]].
    intros Hs. split; [done|]. by intros km.
Qed.

Lemma get_stations_nearby_within_witness :
  exists df,
    get_stations_nearby Examples.directory 30 (-95) 1 (Some 50%Q) = Return df
    /\ sublist df (stations_nearby Examples.directory 30 (-95) None)
    /\ (forall s,
          s ∈ df
          <-> s ∈ stations_nearby Examples.directory 30 (-95) None
              /\ forall km, Some 50%Q = Some km ->
                            exists d, distance s = WeatherData.Num d
                                      /\ (d <= km * 1000)%Q)
    /\ (forall limit',
          get_stations_nearby Examples.directory 30 (-95) limit' (Some 50%Q)
          = Return df).
Proof.
  apply (get_stations_nearby_within Examples.directory 30 (-95) 1 (Some 50%Q)).
  reflexivity.
Defined.

Lemma filter_True {A : Type} (P : A -> Prop) `{!forall x, Decision (P x)}
    (l : list A) :
  (forall x, P x) -> filter P l = l.
Proof.
  intros HP. induction l as [|x l IH]; [done|].
  rewrite filter_cons, decide_True by done. by f_equal.
Qed.

Lemma get_all_stations_eq ms c r :
  _METEOSTAT_AVAILABLE ms = true ->
  get_all_stations ms c r
  = Return (filter (fun s => matches c (country s) /\ matches r (region s))
              (stations_meta ms)).
Proof.
  intros Hav. unfold get_all_stations, _check_meteostat. rewrite Hav. simpl.
  f_equal. destruct c as [c|], r as [r|]; simpl.
  - rewrite list_filter_filter. apply list_filter_iff. intros s. tauto.
  - apply list_filter_iff. intros s. tauto.
  - apply list_filter_iff. intros s. tauto.
  - symmetry. by apply filter_True.
Qed.

(** X19. [get_all_stations] returns, in directory order, exactly the stations
    that carry the requested country and the requested region; a station
    without country (or region) never matches a requested one; and
    filtering by both is filtering the result for the country by the
    region. *)
Theorem get_all_stations_filters
    (ms : meteostat) (c r : option string) :
  _METEOSTAT_AVAILABLE ms = true ->
  exists df,
    get_all_stations ms c r = Return df
    /\ sublist df (stations_meta ms)
    /\ (forall s,
          s ∈ df
          <-> s ∈ stations_meta ms
              /\ (forall c', c = Some c' -> country s = Some c')
              /\ (forall r', r = Some r' -> region s = Some r'))
    /\ (exists dc,
          get_all_stations ms c None = Return dc
          /\ df = match r with
                  | Some r' => filter (fun s => region s = Some r') dc
                  | None => dc
                  end).
Proof.
  intros Hav. rewrite !get_all_stations_eq by done.
  eexists. split; [done|]. split; [apply sublist_filter|]. split.
  - intros s. rewrite list_elem_of_filter.
    destruct c as [c|], r as [r|]; simpl; naive_solver.
  - eexists. split; [done|]. destruct r as [r|]; simpl.
    + rewrite list_filter_filter. apply list_filter_iff. intros s. tauto.
    + done.
Qed.

Lemma get_all_stations_filters_witness :
  exists df,
    get_all_stations Examples.directory (Some "US") (Some "TX") = Return df
    /\ sublist df (stations_meta Examples.directory)
    /\ (forall s,
          s ∈ df
          <-> s ∈ stations_meta Examples.directory
              /\ (forall c', Some "US" = Some c' -> country s = Some c')
              /\ (forall r', Some "TX" = Some r' -> region s = Some r'))
    /\ (exists dc,
          get_all_stations Examples.directory (Some "US") None = Return dc
          /\ df = match Some "TX" with
                  | Some r' => filter (fun s => region s = Some r') dc
                  | None => dc
                  end).
Proof.
  apply (get_all_stations_filters Examples.directory (Some "US") (Some "TX")).
  reflexivity.
Defined.

(** X20. Every station that [get_all_stations] lists can be fetched by its
    id: when the ids of the directory are distinct, [get_station_by_id]
    returns that station and no other row. *)
Theorem get_station_by_id_of_listed
    (ms : meteostat) (c r : option string) (df : list Station) (s : Station) :
  NoDup (id <$> stations_meta ms) ->
  get_all_stations ms c r = Return df ->
  s ∈ df ->
  get_station_by_id ms (id s) = Return [s].
Proof.
  intros Hnd Hall Hs.
  destruct (_METEOSTAT_AVAILABLE ms) eqn:Hav.
  2:{ unfold get_all_stations, _check_meteostat in Hall.
      by rewrite Hav in Hall. }
  rewrite get_all_stations_eq in Hall by done. injection Hall as <-.
  apply list_elem_of_filter in Hs as [_ Hs].
  unfold get_station_by_id, _check_meteostat. rewrite Hav. simpl.
  rewrite decide_True by (by apply list_elem_of_fmap_2).
  f_equal. by apply filter_unique_key.
Qed.

Lemma get_station_by_id_of_listed_witness :
  get_station_by_id Examples.directory
    (id (Examples.a_station "72259" "Dallas" (Some "US") (Some "TX")))
  = Return [Examples.a_station "72259" "Dallas" (Some "US") (Some "TX")].
Proof.
  apply (get_station_by_id_of_listed Examples.directory (Some "US") None
           [Examples.a_station "72243" "Houston" (Some "US") (Some "TX");
            Examples.a_station "72259" "Dallas" (Some "US") (Some "TX")]).
  - by vm_compute; repeat constructor; set_solver.
  - reflexivity.
  - right. left.
Defined.

(** X21. The errors of the two lookups: each raises the ImportError exactly
    when meteostat is missing; [get_station_by_id] raises the ValueError
    that names the id exactly when meteostat is there and the id is not
    in the directory, and otherwise returns a non-empty frame whose rows
    all carry the id; [get_closest_station] never returns an empty
    frame. *)
Theorem station_lookup_errors
    (ms : meteostat) (station_id : string) (lat lon : Q)
    (min_date : option WeatherData.datetime) :
  (get_station_by_id ms station_id = Raise (ImportError _METEOSTAT_MISSING_MSG)
   <-> _METEOSTAT_AVAILABLE ms = false)
  /\ (get_station_by_id ms station_id
      = Raise (ValueError ("Station '" +:+ station_id +:+ "' not found"))
      <-> _METEOSTAT_AVAILABLE ms = true
          /\ station_id ∉ id <$> stations_meta ms)
  /\ (forall df, get_station_by_id ms station_id = Return df ->
                 df <> [] /\ Forall (fun s => id s = station_id) df)
  /\ (get_closest_station ms lat lon min_date
      = Raise (ImportError _METEOSTAT_MISSING_MSG)
      <-> _METEOSTAT_AVAILABLE ms = false)
  /\ (forall df, get_closest_station ms lat lon min_date = Return df ->
                 df <> [] /\ df = stations_nearby ms lat lon (Some 1))
  /\ ((exists msg, get_closest_station ms lat lon min_date
                   = Raise (ValueError msg))
      <-> _METEOSTAT_AVAILABLE ms = true
          /\ stations_nearby ms lat lon (Some 1) = []).
Proof.
  unfold get_station_by_id, get_closest_station, _check_meteostat.
  destruct (_METEOSTAT_AVAILABLE ms); simpl.
  - destruct (decide (station_id ∈ id <$> stations_meta ms)) as [Hin|Hin];
      destruct (stations_nearby ms lat lon (Some 1)) as [|n ns] eqn:Hn.
    all: split_and!; try (split; [done|]; try done; by intros [? ?]).
    all: try (intros df [= <-]).
    all: try (split; [done|done]).
    all: try solve [split; [intros [? [=]] | intros [_ [=]]]].
    all: try solve [split; [by eexists | by intros [_ ?]]; eauto].
    all: try solve [split; [intros _; by split | by eexists ]].
    all: split.
    all: try (apply Forall_forall; by intros s [? _]%list_elem_of_filter).
    all: apply list_elem_of_fmap in Hin as (s & -> & Hs);
      intros Hnil;
      assert (s ∈ filter (fun s0 => id s0 = id s) (stations_meta ms)) as Hf
        by (by apply list_elem_of_filter);
      rewrite Hnil in Hf; by apply elem_of_nil in Hf.
  - split_and!; try done; try (split; [done|]; by intros [? ?]).
    split; [by intros [? ?]|by intros [? _]].
Qed.

End stations_facts.
